(** * DA7280 haptic driver HAL: a shallow embedding of [da7280.c]

    The C driver talks to the chip through two platform routines,
    [i2c_register_read] and [i2c_register_write], and keeps its own state in
    the file-static [struct da7280_haptic haptic].  The embedding threads
    both through a small state monad: the driver state, and the log of every
    bus call issued so far.  The platform routines are an arbitrary function
    of that log, so that a statement proved for every [transport] holds for
    every behaviour of the chip and of the bus, failures included. *)

From Stdlib Require Import ZArith List Lia Bool.
Import ListNotations.
Open Scope Z_scope.

(** ** C integer types

    [u8], [u16] and [u32] are the conversions to [unsigned char],
    [unsigned short] and [unsigned int]. *)

Definition u8 (x : Z) : Z := x mod 256.
Definition u16 (x : Z) : Z := x mod 65536.
Definition u32 (x : Z) : Z := x mod 4294967296.

(** [c ? 1 : 0] *)
Definition tern (c : Z) : Z := if c =? 0 then 0 else 1.

(** ** Constants of [da7280_hal.h] *)

Definition EINVAL : Z := 1.
Definition EACCES : Z := 13.
Definition EBUSY : Z := 16.
Definition EIO : Z := 2.
Definition EOPNOTSUPP : Z := 95.
Definition SEQ_END : Z := 0xFFFF.
Definition DA7280_DELAY : Z := 0xFFFE.

Definition DA7280_VOLT_RATE_MAX : Z := 6000.
Definition DA7280_VOLT_STEP_uV : Z := 23400.
Definition DA7280_NOM_VOLT_DFT : Z := 0x6B.
Definition DA7280_IMAX_STEP : Z := 7200.
Definition DA7280_MIN_RESONAT_FREQ : Z := 50.
Definition DA7280_MAX_RESONAT_FREQ : Z := 300.
Definition DA7280_IMPD_MAX : Z := 50000.
Definition DA7280_IMPD_MIN : Z := 4000.
Definition DA7280_IMAX_LIMIT : Z := 252.
Definition DA7280_SNP_MEM_SIZE : Z := 100.
Definition IRQ_NUM : nat := 3.

(** [enum da7280_haptic_dev_t] and [enum da7280_op_mode] *)
Definition DA7280_LRA : Z := 0.
Definition DA7280_ERM_BAR : Z := 1.
Definition DA7280_ERM_COIN : Z := 2.

Definition DA7280_INACTIVE_MODE : Z := 0.
Definition DA7280_DRO_MODE : Z := 1.
Definition DA7280_PWM_MODE : Z := 2.
Definition DA7280_RTWM_MODE : Z := 3.
Definition DA7280_ETWM_MODE : Z := 4.
Definition DA7280_MODE_MAX : Z := 5.

(** ** Register map of [da7280.h] *)

Definition DA7280_IRQ_EVENT1 : Z := 0x03.
Definition DA7280_IRQ_EVENT_WARNING_DIAG : Z := 0x04.
Definition DA7280_IRQ_EVENT_PAT_DIAG : Z := 0x05.
Definition DA7280_IRQ_STATUS1 : Z := 0x06.
Definition DA7280_FRQ_LRA_PER_H : Z := 0x0A.
Definition DA7280_FRQ_LRA_PER_L : Z := 0x0B.
Definition DA7280_ACTUATOR1 : Z := 0x0C.
Definition DA7280_ACTUATOR2 : Z := 0x0D.
Definition DA7280_ACTUATOR3 : Z := 0x0E.
Definition DA7280_CALIB_V2I_H : Z := 0x0F.
Definition DA7280_CALIB_V2I_L : Z := 0x10.
Definition DA7280_TOP_CFG1 : Z := 0x13.
Definition DA7280_TOP_CFG4 : Z := 0x16.
Definition DA7280_TOP_INT_CFG1 : Z := 0x17.
Definition DA7280_TOP_CTL1 : Z := 0x22.
Definition DA7280_TOP_CTL2 : Z := 0x23.
Definition DA7280_SEQ_CTL2 : Z := 0x28.
Definition DA7280_GPI_0_CTL : Z := 0x29.
Definition DA7280_GPI_1_CTL : Z := 0x2A.
Definition DA7280_GPI_2_CTL : Z := 0x2B.
Definition DA7280_MEM_CTL1 : Z := 0x2C.
Definition DA7280_MEM_CTL2 : Z := 0x2D.
Definition DA7280_SNP_MEM_0 : Z := 0x84.
Definition DA7280_SNP_MEM_99 : Z := 0xE7.
Definition DA7280_SNP_MEM_MAX : Z := DA7280_SNP_MEM_99.

(** Fields, as (shift, mask) pairs. *)
Definition DA7280_E_PAT_FAULT_MASK : Z := Z.shiftl 1 4.
Definition DA7280_STA_WARNING_MASK : Z := Z.shiftl 1 5.
Definition DA7280_IMAX_MASK : Z := Z.shiftl 31 0.
Definition DA7280_AMP_PID_EN_SHIFT : Z := 0.
Definition DA7280_AMP_PID_EN_MASK : Z := Z.shiftl 1 0.
Definition DA7280_RAPID_STOP_EN_SHIFT : Z := 1.
Definition DA7280_RAPID_STOP_EN_MASK : Z := Z.shiftl 1 1.
Definition DA7280_ACCELERATION_EN_SHIFT : Z := 2.
Definition DA7280_ACCELERATION_EN_MASK : Z := Z.shiftl 1 2.
Definition DA7280_FREQ_TRACK_EN_SHIFT : Z := 3.
Definition DA7280_FREQ_TRACK_EN_MASK : Z := Z.shiftl 1 3.
Definition DA7280_BEMF_SENSE_EN_SHIFT : Z := 4.
Definition DA7280_BEMF_SENSE_EN_MASK : Z := Z.shiftl 1 4.
Definition DA7280_ACTUATOR_TYPE_SHIFT : Z := 5.
Definition DA7280_ACTUATOR_TYPE_MASK : Z := Z.shiftl 1 5.
Definition DA7280_TST_CALIB_IMPEDANCE_DIS_MASK : Z := Z.shiftl 1 6.
Definition DA7280_V2I_FACTOR_FREEZE_MASK : Z := Z.shiftl 1 7.
Definition DA7280_BEMF_FAULT_LIM_MASK : Z := Z.shiftl 3 0.
Definition DA7280_OPERATION_MODE_SHIFT : Z := 0.
Definition DA7280_OPERATION_MODE_MASK : Z := Z.shiftl 7 0.
Definition DA7280_STANDBY_EN_SHIFT : Z := 3.
Definition DA7280_STANDBY_EN_MASK : Z := Z.shiftl 1 3.
Definition DA7280_SEQ_START_MASK : Z := Z.shiftl 1 4.
Definition DA7280_PS_SEQ_ID_SHIFT : Z := 0.
Definition DA7280_PS_SEQ_LOOP_SHIFT : Z := 4.
Definition DA7280_GPI0_POLARITY_SHIFT : Z := 0.
Definition DA7280_GPI0_MODE_SHIFT : Z := 2.
Definition DA7280_GPI0_SEQUENCE_ID_SHIFT : Z := 3.
Definition DA7280_PATTERN_MEM_LOCK_MASK : Z := Z.shiftl 1 7.

(** ** Platform data: the [USER_*] macros of [da7280_hal.h]

    The header asks the integrator to edit these for the target system, so
    the driver is modelled for every choice of them. *)

Record user_data : Type := {
  USER_HAPTIC_DEV : Z;
  USER_OP_MODE : Z;
  USER_BEMF_SENS_EN : Z;
  USER_FREQ_TRACK_EN : Z;
  USER_ACC_EN : Z;
  USER_RAPID_STOP_EN : Z;
  USER_AMP_PID_EN : Z;
  USER_NOM_mVolt : Z;
  USER_ABS_MAX_mV : Z;
  USER_RESONANT_FREQ_Hz : Z;
  USER_IMAX_mA : Z;
  USER_IMPD_mOhm : Z;
  USER_OVERIDE_VAL : Z;
  USE_SEQ_ID : Z;
  USE_SEQ_LOOP : Z;
  USER_GPI_0_SEQ_ID : Z;
  USER_GPI_1_SEQ_ID : Z;
  USER_GPI_0_MOD : Z;
  USER_GPI_1_MOD : Z;
  USER_GPI_0_POL : Z;
  USER_GPI_1_POL : Z
}.

(** The values the header ships with. *)
Definition header_user_data : user_data := {|
  USER_HAPTIC_DEV := DA7280_LRA;
  USER_OP_MODE := DA7280_DRO_MODE;
  USER_BEMF_SENS_EN := 1;
  USER_FREQ_TRACK_EN := 1;
  USER_ACC_EN := 1;
  USER_RAPID_STOP_EN := 1;
  USER_AMP_PID_EN := 0;
  USER_NOM_mVolt := 1200;
  USER_ABS_MAX_mV := 1400;
  USER_RESONANT_FREQ_Hz := 180;
  USER_IMAX_mA := 137;
  USER_IMPD_mOhm := 10500;
  USER_OVERIDE_VAL := 0x59;
  USE_SEQ_ID := 7;
  USE_SEQ_LOOP := 3;
  USER_GPI_0_SEQ_ID := 7;
  USER_GPI_1_SEQ_ID := 7;
  USER_GPI_0_MOD := 0;
  USER_GPI_1_MOD := 0;
  USER_GPI_0_POL := 2;
  USER_GPI_1_POL := 2
|}.

(** ** Driver state and bus log *)

(** [struct da7280_haptic] *)
Record da7280_haptic : Type := {
  suspend_state : Z;
  magnitude : Z;
  dev_type : Z;
  op_mode : Z;
  bemf_sense_en : Z;
  freq_track_en : Z;
  acc_en : Z;
  rapid_stop_en : Z;
  amp_pid_en : Z
}.

(** One call of a platform routine, with what it answered. *)
Inductive bus_event : Type :=
| BusRead (reg : Z) (ret : Z) (val : Z)
| BusWrite (reg : Z) (val : Z) (ret : Z)
| Sleep (ms : Z).

(** The platform's I2C routines of [common-i2c-routines.h].  Each answers
    from the calls made so far (oldest first): [i2c_register_read] gives its
    return code and the byte it stored through the pointer,
    [i2c_register_write] its return code. *)
Record transport : Type := {
  i2c_register_read : list bus_event -> Z -> Z * Z;
  i2c_register_write : list bus_event -> Z -> Z -> Z
}.

Record world : Type := {
  haptic : da7280_haptic;
  trace : list bus_event
}.

Definition M (A : Type) : Type := world -> A * world.

Definition ret {A : Type} (a : A) : M A := fun w => (a, w).

Definition bind {A B : Type} (m : M A) (k : A -> M B) : M B :=
  fun w => let (a, w') := m w in k a w'.

Notation "x <- m ;; k" := (bind m (fun x => k))
  (at level 61, m at next level, right associativity).
Notation "' pat <- m ;; k" := (bind m (fun x => let pat := x in k))
  (at level 61, pat pattern, m at next level, right associativity).
Notation "m ;;; k" := (bind m (fun _ => k))
  (at level 61, right associativity).

(** The truth value of a C integer used as a condition. *)
Definition nonzero (r : Z) : bool := negb (r =? 0).

Definition get_haptic : M da7280_haptic := fun w => (haptic w, w).

Definition put_haptic (h : da7280_haptic) : M unit :=
  fun w => (tt, {| haptic := h; trace := trace w |}).

Definition emit (e : bus_event) : M unit :=
  fun w => (tt, {| haptic := haptic w; trace := trace w ++ [e] |}).

Definition msleep (ms : Z) : M unit := emit (Sleep ms).

(** Field updates of [haptic]. *)
Definition set_suspend_state (v : Z) (h : da7280_haptic) : da7280_haptic :=
  {| suspend_state := v; magnitude := magnitude h; dev_type := dev_type h;
     op_mode := op_mode h; bemf_sense_en := bemf_sense_en h;
     freq_track_en := freq_track_en h; acc_en := acc_en h;
     rapid_stop_en := rapid_stop_en h; amp_pid_en := amp_pid_en h |}.

Definition set_bemf_sense_en (v : Z) (h : da7280_haptic) : da7280_haptic :=
  {| suspend_state := suspend_state h; magnitude := magnitude h;
     dev_type := dev_type h; op_mode := op_mode h; bemf_sense_en := v;
     freq_track_en := freq_track_en h; acc_en := acc_en h;
     rapid_stop_en := rapid_stop_en h; amp_pid_en := amp_pid_en h |}.

(** [haptic.acc_en = 0; haptic.rapid_stop_en = 0; haptic.amp_pid_en = 0;] *)
Definition clear_coin_flags (h : da7280_haptic) : da7280_haptic :=
  {| suspend_state := suspend_state h; magnitude := magnitude h;
     dev_type := dev_type h; op_mode := op_mode h;
     bemf_sense_en := bemf_sense_en h; freq_track_en := freq_track_en h;
     acc_en := 0; rapid_stop_en := 0; amp_pid_en := 0 |}.

(** Further constants of the two headers, for the rest of the driver. *)
Definition DA7280_MIN_PWM_FREQ_kHz : Z := 10000.
Definition DA7280_MAX_PWM_FREQ_kHz : Z := 250000.
Definition DA7280_GPI_MOD_MAX : Z := 2.
Definition DA7280_GPI0_MODE_MASK : Z := Z.shiftl 1 2.

Definition set_op_mode_field (v : Z) (h : da7280_haptic) : da7280_haptic :=
  {| suspend_state := suspend_state h; magnitude := magnitude h;
     dev_type := dev_type h; op_mode := v; bemf_sense_en := bemf_sense_en h;
     freq_track_en := freq_track_en h; acc_en := acc_en h;
     rapid_stop_en := rapid_stop_en h; amp_pid_en := amp_pid_en h |}.

Section Driver.

Variable T : transport.
Variable U : user_data.

(** ** I/O control interface functions *)

Definition da7280_reg_read (reg : Z) : M Z :=
  fun w =>
    let (r, v) := i2c_register_read T (trace w) reg in
    let val := u8 v in
    let w' := {| haptic := haptic w; trace := trace w ++ [BusRead reg r val] |} in
    if r <? 0 then (- EIO, w') else (val, w').

Definition da7280_reg_write (reg val : Z) : M Z :=
  fun w =>
    let r := i2c_register_write T (trace w) reg val in
    (r, {| haptic := haptic w; trace := trace w ++ [BusWrite reg val r] |}).

(** The [for] loop of [da7280_reg_bulk_write]: [n] iterations left, at
    index [i]; [val] is the caller's memory from the pointer on. *)
Fixpoint bulk_write_loop (reg : Z) (val : nat -> Z) (i n : nat) : M Z :=
  match n with
  | O => ret 0
  | S n' =>
      r <- da7280_reg_write (u8 (reg + Z.of_nat i)) (val i) ;;
      if r =? 0 then bulk_write_loop reg val (S i) n' else ret (- EIO)
  end.

Definition da7280_reg_bulk_write (reg : Z) (val : nat -> Z) (val_count : Z) : M Z :=
  bulk_write_loop reg val 0 (Z.to_nat val_count).

(** [val] is a [u8] in the source: the read's [int] result is converted on
    assignment, and the comparison with zero is made on the byte. *)
Definition da7280_update_bits (reg mask bits : Z) : M Z :=
  r <- da7280_reg_read reg ;;
  let val := u8 r in
  if val <? 0 then ret (- EIO)
  else
    let val := u8 (Z.land val (Z.lnot mask)) in
    let val := u8 (Z.lor val bits) in
    w <- da7280_reg_write reg val ;;
    if w <? 0 then ret (- EIO) else ret 0.

(** [da7280_pdata_setup], with [DA7280_USER_GPIO] defined as in the header.
    The entry for [DA7280_GPI_2_CTL] takes the [USER_GPI_1_*] macros, as the
    source has it. *)
Definition da7280_pdata_setup : list (Z * Z) :=
  [ (DA7280_IRQ_EVENT1, 0xff);
    (DA7280_TOP_CTL2, u8 (USER_OVERIDE_VAL U));
    (DA7280_SEQ_CTL2,
       u8 (Z.lor (Z.shiftl (USE_SEQ_LOOP U) DA7280_PS_SEQ_LOOP_SHIFT)
                 (Z.shiftl (USE_SEQ_ID U) DA7280_PS_SEQ_ID_SHIFT)));
    (DA7280_GPI_0_CTL,
       u8 (Z.lor (Z.lor
             (Z.shiftl (USER_GPI_0_SEQ_ID U) DA7280_GPI0_SEQUENCE_ID_SHIFT)
             (Z.shiftl (USER_GPI_0_MOD U) DA7280_GPI0_MODE_SHIFT))
             (Z.shiftl (USER_GPI_0_POL U) DA7280_GPI0_POLARITY_SHIFT)));
    (DA7280_GPI_1_CTL,
       u8 (Z.lor (Z.lor
             (Z.shiftl (USER_GPI_1_SEQ_ID U) DA7280_GPI0_SEQUENCE_ID_SHIFT)
             (Z.shiftl (USER_GPI_1_MOD U) DA7280_GPI0_MODE_SHIFT))
             (Z.shiftl (USER_GPI_1_POL U) DA7280_GPI0_POLARITY_SHIFT)));
    (DA7280_GPI_2_CTL,
       u8 (Z.lor (Z.lor
             (Z.shiftl (USER_GPI_1_SEQ_ID U) DA7280_GPI0_SEQUENCE_ID_SHIFT)
             (Z.shiftl (USER_GPI_1_MOD U) DA7280_GPI0_MODE_SHIFT))
             (Z.shiftl (USER_GPI_1_POL U) DA7280_GPI0_POLARITY_SHIFT)));
    (SEQ_END, 0) ].

(** The loop runs up to the [SEQ_END] entry; a script is an array closed by
    one, so the end of the list is never reached before it. *)
Fixpoint da7280_run_script (script : list (Z * Z)) : M Z :=
  match script with
  | [] => ret 0
  | (reg, val) :: rest =>
      if reg =? SEQ_END then ret 0
      else if reg =? DA7280_DELAY then
        msleep val ;;; da7280_run_script rest
      else
        r <- da7280_reg_write (u8 reg) val ;;
        if nonzero r then ret (- EIO) else da7280_run_script rest
  end.

(** ** Pattern memory *)

Definition da7280_haptic_mem_update (snp_mem : nat -> Z) (size : Z) : M Z :=
  if size >? DA7280_SNP_MEM_SIZE then ret (- EINVAL)
  else
    val <- da7280_reg_read DA7280_IRQ_STATUS1 ;;
    if val <? 0 then ret val
    else if nonzero (Z.land val DA7280_STA_WARNING_MASK) then ret (- EBUSY)
    else
      val <- da7280_reg_read DA7280_MEM_CTL2 ;;
      if val <? 0 then ret val
      else if nonzero (Z.land (Z.lnot val) DA7280_PATTERN_MEM_LOCK_MASK)
      then ret (- EACCES)
      else
        val <- da7280_reg_read DA7280_MEM_CTL1 ;;
        if val <? 0 then ret val
        else da7280_reg_bulk_write (u8 val) snp_mem
               (DA7280_SNP_MEM_MAX - val + 1).

(** ** Setters *)

Definition da7280_set_override_val (val : Z) : M Z :=
  let mask := 0xFF in
  if val >? mask then ret (- EINVAL)
  else
    h <- get_haptic ;;
    let mask :=
      if nonzero (acc_en h) || (dev_type h =? DA7280_LRA) then 0x7F else mask in
    let val := if val >? mask then mask else val in
    da7280_reg_write DA7280_TOP_CTL2 (u8 (Z.land val mask)).

Definition da7280_set_resonant_freq (val : Z) : M Z :=
  if (val >? DA7280_MAX_RESONAT_FREQ) || (val <? DA7280_MIN_RESONAT_FREQ)
  then ret (- EINVAL)
  else
    let get_val := u32 (Z.quot 1000000000 (val * 1333)) in
    r <- da7280_reg_write DA7280_FRQ_LRA_PER_H
           (u8 (Z.land (Z.shiftr get_val 7) 0xFF)) ;;
    if nonzero r then ret r
    else
      r <- da7280_reg_write DA7280_FRQ_LRA_PER_L (u8 (Z.land get_val 0x7F)) ;;
      if nonzero r then ret r else ret 0.

Definition da7280_impd_check (impd : Z) : Z :=
  if (impd >? DA7280_IMPD_MAX) || (impd <? DA7280_IMPD_MIN)
  then - EINVAL else 0.

(** [val] and [imax] are [int]; the division truncates towards zero. *)
Definition da7280_set_imax (val : Z) : M Z :=
  if val >? DA7280_IMAX_LIMIT then ret (- EINVAL)
  else
    let imax := Z.quot (val * 1000 - 28600) DA7280_IMAX_STEP + 1 in
    let imax := if imax >? 0x1F then 0x1F else imax in
    r <- da7280_update_bits DA7280_ACTUATOR3 DA7280_IMAX_MASK
           (u8 (Z.land imax DA7280_IMAX_MASK)) ;;
    if nonzero r then ret r
    else
      let r := da7280_impd_check (USER_IMPD_mOhm U) in
      if nonzero r then ret r
      else
        let v2i_factor :=
          u32 (Z.quot (USER_IMPD_mOhm U * 1000 * (imax + 4)) 1610400) in
        r <- da7280_reg_write DA7280_CALIB_V2I_L (u8 (Z.land v2i_factor 0xFF)) ;;
        if nonzero r then ret r
        else
          da7280_reg_write DA7280_CALIB_V2I_H
            (u8 (Z.land (Z.shiftr v2i_factor 8) 0xFF)).

(** [val] and [voltage] are [u32]. *)
Definition da7280_set_volt_rating (reg val : Z) : M Z :=
  let voltage :=
    if val <? DA7280_VOLT_RATE_MAX
    then u32 (Z.quot (u32 (val * 1000)) DA7280_VOLT_STEP_uV + 1)
    else DA7280_NOM_VOLT_DFT in
  let voltage := if voltage >? 0xFF then 0xFF else voltage in
  da7280_reg_write reg (u8 (Z.land voltage 0xFF)).

(** ** Interrupt handling *)

(** The first loop of [da7280_irq_handler]: [n] registers left to read, the
    next one at offset [i]; gives the error code (or 0) and [events]. *)
Fixpoint irq_read_events (i : Z) (n : nat) (events : list Z) : M (Z * list Z) :=
  match n with
  | O => ret (0, events)
  | S n' =>
      val <- da7280_reg_read (u8 (DA7280_IRQ_EVENT1 + i)) ;;
      if val <? 0 then ret (val, events)
      else irq_read_events (i + 1) n' (events ++ [u8 val])
  end.

Definition da7280_irq_handler : M Z :=
  ' (err, events) <- irq_read_events 0 3 [] ;;
  if err <? 0 then ret err
  else
    let ev (i : nat) := nth i events 0 in
    if Z.lor (Z.lor (ev 0%nat) (ev 1%nat)) (ev 2%nat) =? 0 then ret 0
    else
      r <- (if nonzero (Z.land (ev 0%nat) DA7280_E_PAT_FAULT_MASK)
            then da7280_update_bits DA7280_TOP_CTL1
                   DA7280_OPERATION_MODE_MASK 0
            else ret 0) ;;
      if nonzero r then ret r
      else
        r <- da7280_reg_write DA7280_IRQ_EVENT1 (ev 0%nat) ;;
        if nonzero r then ret r else ret 0.

(** ** Suspend and resume *)

Definition da7280_suspend : M Z :=
  h <- get_haptic ;;
  if nonzero (suspend_state h) then ret 0
  else
    r <- da7280_update_bits DA7280_TOP_CTL1 DA7280_STANDBY_EN_MASK 0 ;;
    if nonzero r then ret r
    else
      h <- get_haptic ;;
      put_haptic (set_suspend_state 1 h) ;;;
      ret 0.

Definition da7280_resume : M Z :=
  h <- get_haptic ;;
  if suspend_state h =? 0 then ret 0
  else
    r <- da7280_update_bits DA7280_TOP_CTL1 DA7280_STANDBY_EN_MASK
           DA7280_STANDBY_EN_MASK ;;
    if nonzero r then ret r
    else
      h <- get_haptic ;;
      put_haptic (set_suspend_state 0 h) ;;;
      ret 0.

(** ** Platform set-up *)

(** The [switch (haptic.dev_type)] of [da7280_set_user_data]; a non-zero
    result is the code the function returns with from inside the switch. *)
Definition set_user_data_switch : M Z :=
  h <- get_haptic ;;
  if dev_type h =? DA7280_LRA then
    da7280_set_resonant_freq (u16 (USER_RESONANT_FREQ_Hz U))
  else if dev_type h =? DA7280_ERM_COIN then
    r <- da7280_update_bits DA7280_TOP_INT_CFG1 DA7280_BEMF_FAULT_LIM_MASK 0 ;;
    if nonzero r then ret r
    else
      r <- da7280_update_bits DA7280_TOP_CFG4
             (u8 (Z.lor DA7280_TST_CALIB_IMPEDANCE_DIS_MASK
                        DA7280_V2I_FACTOR_FREEZE_MASK))
             (u8 (Z.lor DA7280_TST_CALIB_IMPEDANCE_DIS_MASK
                        DA7280_V2I_FACTOR_FREEZE_MASK)) ;;
      if nonzero r then ret r
      else
        h <- get_haptic ;;
        put_haptic (clear_coin_flags h) ;;;
        ret 0
  else ret 0.

Definition da7280_set_user_data : M Z :=
  h <- get_haptic ;;
  put_haptic
    {| suspend_state := suspend_state h; magnitude := magnitude h;
       dev_type := u8 (USER_HAPTIC_DEV U);
       op_mode := u8 (USER_OP_MODE U);
       bemf_sense_en := u8 (USER_BEMF_SENS_EN U);
       freq_track_en := u8 (USER_FREQ_TRACK_EN U);
       acc_en := u8 (USER_ACC_EN U);
       rapid_stop_en := u8 (USER_RAPID_STOP_EN U);
       amp_pid_en := u8 (USER_AMP_PID_EN U) |} ;;;
  r <- set_user_data_switch ;;
  if nonzero r then ret r
  else
    h <- get_haptic ;;
    (if op_mode h >=? DA7280_RTWM_MODE
     then put_haptic (set_bemf_sense_en 0 h) else ret tt) ;;;
    h <- get_haptic ;;
    let mask :=
      u8 (Z.lor (Z.lor (Z.lor (Z.lor (Z.lor
            DA7280_ACTUATOR_TYPE_MASK
            DA7280_BEMF_SENSE_EN_MASK)
            DA7280_FREQ_TRACK_EN_MASK)
            DA7280_ACCELERATION_EN_MASK)
            DA7280_RAPID_STOP_EN_MASK)
            DA7280_AMP_PID_EN_MASK) in
    let val :=
      u8 (Z.lor (Z.lor (Z.lor (Z.lor (Z.lor
            (Z.shiftl (tern (dev_type h)) DA7280_ACTUATOR_TYPE_SHIFT)
            (Z.shiftl (tern (bemf_sense_en h)) DA7280_BEMF_SENSE_EN_SHIFT))
            (Z.shiftl (tern (freq_track_en h)) DA7280_FREQ_TRACK_EN_SHIFT))
            (Z.shiftl (tern (acc_en h)) DA7280_ACCELERATION_EN_SHIFT))
            (Z.shiftl (tern (rapid_stop_en h)) DA7280_RAPID_STOP_EN_SHIFT))
            (Z.shiftl (tern (amp_pid_en h)) DA7280_AMP_PID_EN_SHIFT)) in
    r <- da7280_update_bits DA7280_TOP_CFG1 mask val ;;
    if nonzero r then ret r
    else
      r <- da7280_set_imax (USER_IMAX_mA U) ;;
      if nonzero r then ret r
      else
        r <- da7280_set_volt_rating DA7280_ACTUATOR1 (u32 (USER_NOM_mVolt U)) ;;
        if nonzero r then ret r
        else
          r <- da7280_set_volt_rating DA7280_ACTUATOR2
                 (u32 (USER_ABS_MAX_mV U)) ;;
          if nonzero r then ret r
          else
            r <- da7280_run_script da7280_pdata_setup ;;
            if nonzero r then ret (- EINVAL) else ret 0.

(** ** The rest of the driver *)

(** [da7280_run_script_mask]: entries are (reg, mask, val). *)
Fixpoint da7280_run_script_mask (script : list (Z * Z * Z)) : M Z :=
  match script with
  | [] => ret 0
  | (reg, mask, val) :: rest =>
      if reg =? SEQ_END then ret 0
      else if reg =? DA7280_DELAY then
        msleep val ;;; da7280_run_script_mask rest
      else
        r <- da7280_update_bits (u8 reg) mask val ;;
        if nonzero r then ret (- EIO) else da7280_run_script_mask rest
  end.

(** The loop of [da7280_haptic_mem_read]: [n] bytes left, at index [i];
    [snp_mem] lists the bytes stored so far through the pointer, from
    [snp_mem[0]] on.  The test inside the loop is on [val], as in the
    source. *)
Fixpoint mem_read_loop (val : Z) (i n : nat) (snp_mem : list Z)
    : M (Z * list Z) :=
  match n with
  | O => ret (0, snp_mem)
  | S n' =>
      mem_val <- da7280_reg_read (u8 (val + Z.of_nat i)) ;;
      if val <? 0 then ret (val, snp_mem)
      else
        mem_read_loop val (S i) n'
          (snp_mem ++ [u8 (Z.land (u8 mem_val) 0xff)])
  end.

(** The result is the return code and the bytes stored in the caller's
    buffer. *)
Definition da7280_haptic_mem_read (size : Z) : M (Z * list Z) :=
  if size >? DA7280_SNP_MEM_SIZE then ret (- EINVAL, [])
  else
    val <- da7280_reg_read DA7280_MEM_CTL1 ;;
    if val <? 0 then ret (val, [])
    else mem_read_loop val 0 (Z.to_nat size) [].


Definition da7280_set_gpi_mod (gpi_num val : Z) : M Z :=
  if val >=? DA7280_GPI_MOD_MAX then ret (- EINVAL)
  else
    da7280_update_bits (u8 (DA7280_GPI_0_CTL + gpi_num))
      DA7280_GPI0_MODE_MASK
      (u8 (Z.shiftl val DA7280_GPI0_MODE_SHIFT)).





Definition da7280_acc_enable (enable : Z) : M Z :=
  da7280_update_bits DA7280_TOP_CFG1 DA7280_ACCELERATION_EN_MASK
    (u8 (Z.shiftl (tern enable) DA7280_ACCELERATION_EN_SHIFT)).





Definition da7280_set_op_mode (mode : Z) : M Z :=
  if (mode >=? DA7280_MODE_MAX) || (mode <? 0) then ret (- EINVAL)
  else
    h <- get_haptic ;;
    put_haptic (set_op_mode_field (u8 mode) h) ;;;
    ret 0.

Definition da7280_get_op_mode : M Z :=
  h <- get_haptic ;; ret (op_mode h).

(** [DA7280_HAPTIC_PWM] is the build flag of the same name; neither header
    defines it.  The function's return type is [u8]. *)
Definition da7280_set_pwm (DA7280_HAPTIC_PWM : bool) : M Z :=
  if DA7280_HAPTIC_PWM then ret 0 else ret (u8 (- EOPNOTSUPP)).

Definition da7280_pwm_check (freq_hz pwm_duty : Z) : M Z :=
  if (freq_hz <? DA7280_MIN_PWM_FREQ_kHz) || (freq_hz >? DA7280_MAX_PWM_FREQ_kHz)
  then ret (- EINVAL)
  else
    h <- get_haptic ;;
    if (acc_en h =? 0) && (pwm_duty <? 50) then ret (- EINVAL) else ret 0.

Definition da7280_pwm_disable : M Z := ret 0.

Definition da7280_haptic_enable (DA7280_HAPTIC_PWM : bool) : M Z :=
  h <- get_haptic ;;
  r <- (if op_mode h =? DA7280_PWM_MODE
        then da7280_set_pwm DA7280_HAPTIC_PWM else ret 0) ;;
  if nonzero r then ret r
  else
    r <- da7280_update_bits DA7280_TOP_CTL1 DA7280_OPERATION_MODE_MASK
           (u8 (Z.shiftl (op_mode h) DA7280_OPERATION_MODE_SHIFT)) ;;
    if nonzero r then ret r
    else
      if (op_mode h =? DA7280_PWM_MODE) || (op_mode h =? DA7280_RTWM_MODE)
      then
        r <- da7280_update_bits DA7280_TOP_CTL1 DA7280_SEQ_START_MASK
               DA7280_SEQ_START_MASK ;;
        if nonzero r then ret r else ret 0
      else ret 0.

Definition da7280_haptic_disable : M Z :=
  r <- da7280_update_bits DA7280_TOP_CTL1 DA7280_OPERATION_MODE_MASK 0 ;;
  if nonzero r then ret r
  else
    h <- get_haptic ;;
    r <- (if op_mode h =? DA7280_PWM_MODE then da7280_pwm_disable else ret 0) ;;
    if nonzero r then ret r else ret 0.

Definition da7280_irq_status : M Z := da7280_reg_read DA7280_IRQ_STATUS1.

Definition da7280_init : M Z :=
  r <- da7280_set_user_data ;;
  if nonzero r then ret (- EIO)
  else
    h <- get_haptic ;;
    put_haptic (set_suspend_state 1 h) ;;;
    r <- da7280_resume ;;
    if nonzero r then ret (- EIO) else ret 0.

Definition da7280_set_default : M Z :=
  r <- da7280_set_user_data ;;
  if nonzero r then ret r else ret 0.

End Driver.

(** ** Mock transports, for running the driver on concrete inputs *)

(** Every register reads [v]; no call fails. *)
Definition steady_bus (v : Z) : transport :=
  {| i2c_register_read := fun _ _ => (0, v);
     i2c_register_write := fun _ _ _ => 0 |}.

(** Reads fail with code [e]; writes go through. *)
Definition deaf_bus (e : Z) : transport :=
  {| i2c_register_read := fun _ _ => (e, 0);
     i2c_register_write := fun _ _ _ => 0 |}.

(** The last byte written to [reg] in the log, [init reg] if none. *)
Fixpoint reg_value (init : Z -> Z) (log : list bus_event) (reg : Z) : Z :=
  match log with
  | [] => init reg
  | BusWrite r v _ :: log' =>
      reg_value (fun x => if x =? r then v else init x) log' reg
  | _ :: log' => reg_value init log' reg
  end.

(** A chip that stores what is written to it, starting from [init]. *)
Definition chip (init : Z -> Z) : transport :=
  {| i2c_register_read := fun log reg => (0, reg_value init log reg);
     i2c_register_write := fun _ _ _ => 0 |}.

Definition haptic0 : da7280_haptic :=
  {| suspend_state := 0; magnitude := 0; dev_type := 0; op_mode := 0;
     bemf_sense_en := 0; freq_track_en := 0; acc_en := 0;
     rapid_stop_en := 0; amp_pid_en := 0 |}.

Definition set_dev_type (v : Z) (h : da7280_haptic) : da7280_haptic :=
  {| suspend_state := suspend_state h; magnitude := magnitude h;
     dev_type := v; op_mode := op_mode h; bemf_sense_en := bemf_sense_en h;
     freq_track_en := freq_track_en h; acc_en := acc_en h;
     rapid_stop_en := rapid_stop_en h; amp_pid_en := amp_pid_en h |}.

Definition world0 : world := {| haptic := haptic0; trace := [] |}.

(** Platform data that differs from [U] in one macro. *)
Definition with_imax (v : Z) (U : user_data) : user_data :=
  {| USER_HAPTIC_DEV := USER_HAPTIC_DEV U; USER_OP_MODE := USER_OP_MODE U;
     USER_BEMF_SENS_EN := USER_BEMF_SENS_EN U;
     USER_FREQ_TRACK_EN := USER_FREQ_TRACK_EN U; USER_ACC_EN := USER_ACC_EN U;
     USER_RAPID_STOP_EN := USER_RAPID_STOP_EN U;
     USER_AMP_PID_EN := USER_AMP_PID_EN U; USER_NOM_mVolt := USER_NOM_mVolt U;
     USER_ABS_MAX_mV := USER_ABS_MAX_mV U;
     USER_RESONANT_FREQ_Hz := USER_RESONANT_FREQ_Hz U;
     USER_IMAX_mA := v;
     USER_IMPD_mOhm := USER_IMPD_mOhm U;
     USER_OVERIDE_VAL := USER_OVERIDE_VAL U; USE_SEQ_ID := USE_SEQ_ID U;
     USE_SEQ_LOOP := USE_SEQ_LOOP U;
     USER_GPI_0_SEQ_ID := USER_GPI_0_SEQ_ID U;
     USER_GPI_1_SEQ_ID := USER_GPI_1_SEQ_ID U;
     USER_GPI_0_MOD := USER_GPI_0_MOD U; USER_GPI_1_MOD := USER_GPI_1_MOD U;
     USER_GPI_0_POL := USER_GPI_0_POL U; USER_GPI_1_POL := USER_GPI_1_POL U |}.

Definition with_impd (v : Z) (U : user_data) : user_data :=
  {| USER_HAPTIC_DEV := USER_HAPTIC_DEV U; USER_OP_MODE := USER_OP_MODE U;
     USER_BEMF_SENS_EN := USER_BEMF_SENS_EN U;
     USER_FREQ_TRACK_EN := USER_FREQ_TRACK_EN U; USER_ACC_EN := USER_ACC_EN U;
     USER_RAPID_STOP_EN := USER_RAPID_STOP_EN U;
     USER_AMP_PID_EN := USER_AMP_PID_EN U; USER_NOM_mVolt := USER_NOM_mVolt U;
     USER_ABS_MAX_mV := USER_ABS_MAX_mV U;
     USER_RESONANT_FREQ_Hz := USER_RESONANT_FREQ_Hz U;
     USER_IMAX_mA := USER_IMAX_mA U;
     USER_IMPD_mOhm := v;
     USER_OVERIDE_VAL := USER_OVERIDE_VAL U; USE_SEQ_ID := USE_SEQ_ID U;
     USE_SEQ_LOOP := USE_SEQ_LOOP U;
     USER_GPI_0_SEQ_ID := USER_GPI_0_SEQ_ID U;
     USER_GPI_1_SEQ_ID := USER_GPI_1_SEQ_ID U;
     USER_GPI_0_MOD := USER_GPI_0_MOD U; USER_GPI_1_MOD := USER_GPI_1_MOD U;
     USER_GPI_0_POL := USER_GPI_0_POL U; USER_GPI_1_POL := USER_GPI_1_POL U |}.

Definition with_freq (v : Z) (U : user_data) : user_data :=
  {| USER_HAPTIC_DEV := USER_HAPTIC_DEV U; USER_OP_MODE := USER_OP_MODE U;
     USER_BEMF_SENS_EN := USER_BEMF_SENS_EN U;
     USER_FREQ_TRACK_EN := USER_FREQ_TRACK_EN U; USER_ACC_EN := USER_ACC_EN U;
     USER_RAPID_STOP_EN := USER_RAPID_STOP_EN U;
     USER_AMP_PID_EN := USER_AMP_PID_EN U; USER_NOM_mVolt := USER_NOM_mVolt U;
     USER_ABS_MAX_mV := USER_ABS_MAX_mV U;
     USER_RESONANT_FREQ_Hz := v;
     USER_IMAX_mA := USER_IMAX_mA U;
     USER_IMPD_mOhm := USER_IMPD_mOhm U;
     USER_OVERIDE_VAL := USER_OVERIDE_VAL U; USE_SEQ_ID := USE_SEQ_ID U;
     USE_SEQ_LOOP := USE_SEQ_LOOP U;
     USER_GPI_0_SEQ_ID := USER_GPI_0_SEQ_ID U;
     USER_GPI_1_SEQ_ID := USER_GPI_1_SEQ_ID U;
     USER_GPI_0_MOD := USER_GPI_0_MOD U; USER_GPI_1_MOD := USER_GPI_1_MOD U;
     USER_GPI_0_POL := USER_GPI_0_POL U; USER_GPI_1_POL := USER_GPI_1_POL U |}.

Definition with_dev (v : Z) (U : user_data) : user_data :=
  {| USER_HAPTIC_DEV := v; USER_OP_MODE := USER_OP_MODE U;
     USER_BEMF_SENS_EN := USER_BEMF_SENS_EN U;
     USER_FREQ_TRACK_EN := USER_FREQ_TRACK_EN U; USER_ACC_EN := USER_ACC_EN U;
     USER_RAPID_STOP_EN := USER_RAPID_STOP_EN U;
     USER_AMP_PID_EN := USER_AMP_PID_EN U; USER_NOM_mVolt := USER_NOM_mVolt U;
     USER_ABS_MAX_mV := USER_ABS_MAX_mV U;
     USER_RESONANT_FREQ_Hz := USER_RESONANT_FREQ_Hz U;
     USER_IMAX_mA := USER_IMAX_mA U;
     USER_IMPD_mOhm := USER_IMPD_mOhm U;
     USER_OVERIDE_VAL := USER_OVERIDE_VAL U; USE_SEQ_ID := USE_SEQ_ID U;
     USE_SEQ_LOOP := USE_SEQ_LOOP U;
     USER_GPI_0_SEQ_ID := USER_GPI_0_SEQ_ID U;
     USER_GPI_1_SEQ_ID := USER_GPI_1_SEQ_ID U;
     USER_GPI_0_MOD := USER_GPI_0_MOD U; USER_GPI_1_MOD := USER_GPI_1_MOD U;
     USER_GPI_0_POL := USER_GPI_0_POL U; USER_GPI_1_POL := USER_GPI_1_POL U |}.

Definition with_op_mode (v : Z) (U : user_data) : user_data :=
  {| USER_HAPTIC_DEV := USER_HAPTIC_DEV U; USER_OP_MODE := v;
     USER_BEMF_SENS_EN := USER_BEMF_SENS_EN U;
     USER_FREQ_TRACK_EN := USER_FREQ_TRACK_EN U; USER_ACC_EN := USER_ACC_EN U;
     USER_RAPID_STOP_EN := USER_RAPID_STOP_EN U;
     USER_AMP_PID_EN := USER_AMP_PID_EN U; USER_NOM_mVolt := USER_NOM_mVolt U;
     USER_ABS_MAX_mV := USER_ABS_MAX_mV U;
     USER_RESONANT_FREQ_Hz := USER_RESONANT_FREQ_Hz U;
     USER_IMAX_mA := USER_IMAX_mA U;
     USER_IMPD_mOhm := USER_IMPD_mOhm U;
     USER_OVERIDE_VAL := USER_OVERIDE_VAL U; USE_SEQ_ID := USE_SEQ_ID U;
     USE_SEQ_LOOP := USE_SEQ_LOOP U;
     USER_GPI_0_SEQ_ID := USER_GPI_0_SEQ_ID U;
     USER_GPI_1_SEQ_ID := USER_GPI_1_SEQ_ID U;
     USER_GPI_0_MOD := USER_GPI_0_MOD U; USER_GPI_1_MOD := USER_GPI_1_MOD U;
     USER_GPI_0_POL := USER_GPI_0_POL U; USER_GPI_1_POL := USER_GPI_1_POL U |}.

(** The current-limit code as the specification words it:
    [clamp((current_mA * 1000 - 28600) / 7200 + 1, 0, 31)]. *)
Definition spec_imax_code (current_mA : Z) : Z :=
  Z.max 0 (Z.min 31 (Z.quot (current_mA * 1000 - 28600) 7200 + 1)).

(** The byte [da7280_set_imax] hands to [da7280_update_bits]. *)
Definition imax_field (val : Z) : Z :=
  let imax := Z.quot (val * 1000 - 28600) DA7280_IMAX_STEP + 1 in
  let imax := if imax >? 0x1F then 0x1F else imax in
  u8 (Z.land imax DA7280_IMAX_MASK).

(** ** Reasoning about runs

    [bus_ok e]: the platform call [e] reported success, by the test the
    driver's own wrappers apply ([ret < 0] fails a read, [ret != 0] a
    write). *)
Definition bus_ok (e : bus_event) : Prop :=
  match e with
  | BusRead _ r _ => 0 <= r
  | BusWrite _ _ r => r = 0
  | Sleep _ => True
  end.

(** [no_write_to reg e]: the call [e] is not a write to register [reg]. *)
Definition no_write_to (reg : Z) (e : bus_event) : Prop :=
  match e with
  | BusWrite r _ _ => r <> reg
  | _ => True
  end.

(** [does m h tr Q]: run from driver state [h] after the bus log [tr], the
    computation [m] answers some [a], leaves the driver state [h'] and
    extends the log by [new], with [Q a h' new]. *)
Definition does {A : Type} (m : M A) (h : da7280_haptic) (tr : list bus_event)
    (Q : A -> da7280_haptic -> list bus_event -> Prop) : Prop :=
  exists a h' new,
    m {| haptic := h; trace := tr |} = (a, {| haptic := h'; trace := tr ++ new |})
    /\ Q a h' new.

(** The log of [k] successful writes of the bytes [val i], [val (i+1)], ...
    to the registers from [reg + i] on. *)
Definition bulk_log (reg : Z) (val : nat -> Z) (i k : nat) : list bus_event :=
  map (fun j => BusWrite (reg + Z.of_nat j) (val j) 0) (seq i k).



(** [on_register reg e]: the call [e] is a read or a write of register
    [reg]. *)
Definition on_register (reg : Z) (e : bus_event) : Prop :=
  match e with
  | BusRead r _ _ => r = reg
  | BusWrite r _ _ => r = reg
  | Sleep _ => False
  end.

(** [writes_within regs e]: if [e] is a write, it is to one of [regs]. *)
Definition writes_within (regs : list Z) (e : bus_event) : Prop :=
  match e with
  | BusWrite r _ _ => In r regs
  | _ => True
  end.

(** The registers the device-type switch of [da7280_set_user_data] writes,
    and those the steps after the [TOP_CFG1] update write. *)
Definition switch_registers : list Z :=
  [DA7280_FRQ_LRA_PER_H; DA7280_FRQ_LRA_PER_L;
   DA7280_TOP_INT_CFG1; DA7280_TOP_CFG4].

Definition tail_registers : list Z :=
  [DA7280_ACTUATOR3; DA7280_CALIB_V2I_L; DA7280_CALIB_V2I_H;
   DA7280_ACTUATOR1; DA7280_ACTUATOR2;
   DA7280_IRQ_EVENT1; DA7280_TOP_CTL2; DA7280_SEQ_CTL2;
   DA7280_GPI_0_CTL; DA7280_GPI_1_CTL; DA7280_GPI_2_CTL].

Definition setup_registers : list Z :=
  switch_registers ++ DA7280_TOP_CFG1 :: tail_registers.

(** The flags [da7280_set_user_data] ends up with, read off the platform
    data: back-EMF sensing is dropped from mode 3 on, and acceleration,
    rapid stop and amplitude PID are dropped for an ERM coin. *)
Definition flags_of (U : user_data) (h : da7280_haptic) : da7280_haptic :=
  let coin := u8 (USER_HAPTIC_DEV U) =? DA7280_ERM_COIN in
  {| suspend_state := suspend_state h; magnitude := magnitude h;
     dev_type := u8 (USER_HAPTIC_DEV U);
     op_mode := u8 (USER_OP_MODE U);
     bemf_sense_en :=
       if u8 (USER_OP_MODE U) >=? DA7280_RTWM_MODE then 0
       else u8 (USER_BEMF_SENS_EN U);
     freq_track_en := u8 (USER_FREQ_TRACK_EN U);
     acc_en := if coin then 0 else u8 (USER_ACC_EN U);
     rapid_stop_en := if coin then 0 else u8 (USER_RAPID_STOP_EN U);
     amp_pid_en := if coin then 0 else u8 (USER_AMP_PID_EN U) |}.

(** The six low bits of [TOP_CFG1] for flags [h], as a number: the
    actuator type is worth 32, back-EMF sensing 16, frequency tracking 8,
    acceleration 4, rapid stop 2 and amplitude PID 1. *)
Definition top_cfg1_code (h : da7280_haptic) : Z :=
  32 * tern (dev_type h) + 16 * tern (bemf_sense_en h)
  + 8 * tern (freq_track_en h) + 4 * tern (acc_en h)
  + 2 * tern (rapid_stop_en h) + tern (amp_pid_en h).



(** ** Bytes *)

Lemma u8_small (x : Z) : 0 <= x < 256 -> u8 x = x.
Proof. intros H. unfold u8. apply Z.mod_small. exact H. Qed.

Lemma u8_range (x : Z) : 0 <= u8 x < 256.
Proof. unfold u8. apply Z.mod_pos_bound. lia. Qed.

Lemma u8_ones (x : Z) : u8 x = Z.land x (Z.ones 8).
Proof. unfold u8. rewrite Z.land_ones by lia. reflexivity. Qed.

Lemma land_byte (a m : Z) : 0 <= a < 256 -> 0 <= Z.land a m < 256.
Proof.
  intros Ha.
  assert (E : Z.land a m = u8 (Z.land a m)).
  { rewrite u8_ones.
    rewrite <- (u8_small a Ha) at 1. rewrite u8_ones.
    rewrite <- !Z.land_assoc. f_equal. apply Z.land_comm. }
  rewrite E. apply u8_range.
Qed.

Lemma lor_byte (a b : Z) : 0 <= a < 256 -> 0 <= b < 256 -> 0 <= Z.lor a b < 256.
Proof.
  intros Ha Hb.
  assert (E : Z.lor a b = u8 (Z.lor a b)).
  { rewrite u8_ones, Z.land_lor_distr_l, <- !u8_ones.
    rewrite (u8_small a Ha), (u8_small b Hb). reflexivity. }
  rewrite E. apply u8_range.
Qed.

(** ** Register access layer *)

Lemma app2 {A : Type} (l : list A) (a b : A) : (l ++ [a]) ++ [b] = l ++ [a; b].
Proof. rewrite <- app_assoc. reflexivity. Qed.

(** What [da7280_update_bits] does on every bus.  [held] is the byte the
    local [val] holds after the read: the register content, or the low byte
    of [-EIO] when the read failed. *)
Lemma update_bits_run (T : transport) (reg mask bits : Z) (w : world) :
  0 <= bits < 256 ->
  let rd := i2c_register_read T (trace w) reg in
  let held := if fst rd <? 0 then 254 else u8 (snd rd) in
  let new := Z.lor (Z.land held (Z.lnot mask)) bits in
  let rdev := BusRead reg (fst rd) (u8 (snd rd)) in
  let wr := i2c_register_write T (trace w ++ [rdev]) reg new in
  da7280_update_bits T reg mask bits w =
    (if wr <? 0 then - EIO else 0,
     {| haptic := haptic w; trace := trace w ++ [rdev; BusWrite reg new wr] |}).
Proof.
  intros Hb. cbv zeta.
  unfold da7280_update_bits, bind, da7280_reg_read, da7280_reg_write, ret.
  destruct (i2c_register_read T (trace w) reg) as [r v]. cbn [fst snd].
  assert (Hheld : 0 <= (if r <? 0 then 254 else u8 v) < 256).
  { destruct (r <? 0); [lia | apply u8_range]. }
  assert (Hnew : u8 (Z.lor (u8 (Z.land (if r <? 0 then 254 else u8 v)
                                  (Z.lnot mask))) bits)
                 = Z.lor (Z.land (if r <? 0 then 254 else u8 v) (Z.lnot mask)) bits).
  { rewrite (u8_small (Z.land _ _)) by (apply land_byte; exact Hheld).
    apply u8_small, lor_byte; [apply land_byte; exact Hheld | exact Hb]. }
  destruct (r <? 0) eqn:Er.
  - change (u8 (- EIO)) with 254. change (254 <? 0) with false.
    cbv beta iota. cbn [trace haptic]. rewrite Hnew, app2.
    destruct (i2c_register_write T _ reg _ <? 0); reflexivity.
  - rewrite (u8_small (u8 v)) by apply u8_range.
    assert (Hf : (u8 v <? 0) = false) by (pose proof (u8_range v); lia).
    rewrite Hf. cbv beta iota. cbn [trace haptic]. rewrite Hnew, app2.
    destruct (i2c_register_write T _ reg _ <? 0); reflexivity.
Qed.

(** C6, as the code has it: when the read succeeds with [old],
    [da7280_update_bits] issues that read and then one write of
    [(old & ~mask) | bits] to the same register, the value being taken as
    it is and not masked; it returns [-EIO] when the write reports a
    negative code and 0 otherwise. *)
Theorem update_bits_read_modify_write
    (T : transport) (reg mask bits : Z) (w : world) (r v : Z) :
  0 <= bits < 256 ->
  i2c_register_read T (trace w) reg = (r, v) ->
  0 <= r ->
  let old := u8 v in
  let new := Z.lor (Z.land old (Z.lnot mask)) bits in
  let wr := i2c_register_write T (trace w ++ [BusRead reg r old]) reg new in
  da7280_update_bits T reg mask bits w =
    (if wr <? 0 then - EIO else 0,
     {| haptic := haptic w;
        trace := trace w ++ [BusRead reg r old; BusWrite reg new wr] |}).
Proof.
  intros Hb Hrd Hr. cbv zeta.
  pose proof (update_bits_run T reg mask bits w Hb) as H. cbv zeta in H.
  rewrite Hrd in H. cbn [fst snd] in H.
  assert (Hf : (r <? 0) = false) by lia.
  rewrite Hf in H. exact H.
Qed.

(** On a chip holding 0x5A in [TOP_CTL1], updating the low nibble to 0x3
    writes 0x53. *)
Lemma update_bits_read_modify_write_witness :
  da7280_update_bits (steady_bus 0x5A) DA7280_TOP_CTL1 0x0F 0x03 world0 =
    (0, {| haptic := haptic0;
           trace := [BusRead DA7280_TOP_CTL1 0 0x5A;
                     BusWrite DA7280_TOP_CTL1 0x53 0] |}).
Proof.
  exact (update_bits_read_modify_write (steady_bus 0x5A) DA7280_TOP_CTL1
           0x0F 0x03 world0 0 0x5A
           ltac:(lia) eq_refl ltac:(lia)).
Defined.

(** C6 as stated fails twice.  A value with bits outside the mask is ORed
    in whole: with mask 0x0F and value 0xF0 over a register holding 0 the
    byte written is 0xF0, not [(0 & ~0x0F) | (0xF0 & 0x0F) = 0].  And a
    failed read is not reported: the call goes on to write and returns 0. *)
Lemma update_bits_counterexample :
  da7280_update_bits (steady_bus 0) DA7280_TOP_CTL1 0x0F 0xF0 world0 =
    (0, {| haptic := haptic0;
           trace := [BusRead DA7280_TOP_CTL1 0 0;
                     BusWrite DA7280_TOP_CTL1 0xF0 0] |})
  /\ Z.lor (Z.land 0 (Z.lnot 0x0F)) (Z.land 0xF0 0x0F) <> 0xF0
  /\ da7280_update_bits (deaf_bus (-5)) DA7280_TOP_CTL1 0x0F 0x03 world0 =
    (0, {| haptic := haptic0;
           trace := [BusRead DA7280_TOP_CTL1 (-5) 0;
                     BusWrite DA7280_TOP_CTL1 0xF3 0] |}).
Proof.
  split; [reflexivity | split; [discriminate | reflexivity]].
Qed.

(** ** A small program logic over [does] *)

Lemma does_ret {A : Type} (a : A) h tr (Q : A -> da7280_haptic -> list bus_event -> Prop) :
  Q a h [] -> does (ret a) h tr Q.
Proof.
  intros HQ. exists a, h, []. rewrite app_nil_r. split; [reflexivity | exact HQ].
Qed.

Lemma does_bind {A B : Type} (m : M A) (k : A -> M B) h tr
    (Q : B -> da7280_haptic -> list bus_event -> Prop) :
  does m h tr (fun a h1 new1 =>
    does (k a) h1 (tr ++ new1) (fun b h2 new2 => Q b h2 (new1 ++ new2))) ->
  does (bind m k) h tr Q.
Proof.
  intros (a & h1 & new1 & Hm & b & h2 & new2 & Hk & HQ).
  exists b, h2, (new1 ++ new2). split; [| exact HQ].
  unfold bind. rewrite Hm, Hk, app_assoc. reflexivity.
Qed.

Lemma does_weaken {A : Type} (m : M A) h tr
    (P Q : A -> da7280_haptic -> list bus_event -> Prop) :
  does m h tr P -> (forall a h' new, P a h' new -> Q a h' new) -> does m h tr Q.
Proof.
  intros (a & h' & new & Hm & HP) HPQ. exists a, h', new. auto.
Qed.

Lemma does_elim {A : Type} (m : M A) (w : world)
    (Q : A -> da7280_haptic -> list bus_event -> Prop) :
  does m (haptic w) (trace w) Q ->
  exists a h' new,
    m w = (a, {| haptic := h'; trace := trace w ++ new |}) /\ Q a h' new.
Proof. destruct w as [h tr]. intros H. exact H. Qed.

Lemma does_get_haptic h tr (Q : da7280_haptic -> da7280_haptic -> list bus_event -> Prop) :
  Q h h [] -> does get_haptic h tr Q.
Proof.
  intros HQ. exists h, h, []. rewrite app_nil_r. split; [reflexivity | exact HQ].
Qed.

Lemma does_put_haptic h0 h tr (Q : unit -> da7280_haptic -> list bus_event -> Prop) :
  Q tt h0 [] -> does (put_haptic h0) h tr Q.
Proof.
  intros HQ. exists tt, h0, []. rewrite app_nil_r. split; [reflexivity | exact HQ].
Qed.

Lemma does_msleep ms h tr (Q : unit -> da7280_haptic -> list bus_event -> Prop) :
  Q tt h [Sleep ms] -> does (msleep ms) h tr Q.
Proof.
  intros HQ. exists tt, h, [Sleep ms]. split; [reflexivity | exact HQ].
Qed.

(** A register read answers [-EIO] on a negative code and the byte
    otherwise. *)
Lemma does_reg_read (T : transport) reg h tr
    (Q : Z -> da7280_haptic -> list bus_event -> Prop) :
  (forall r v, r < 0 -> Q (- EIO) h [BusRead reg r v]) ->
  (forall r v, 0 <= r -> 0 <= v < 256 -> Q v h [BusRead reg r v]) ->
  does (da7280_reg_read T reg) h tr Q.
Proof.
  intros Hfail Hok. unfold does, da7280_reg_read. cbn [trace haptic].
  destruct (i2c_register_read T tr reg) as [r v].
  destruct (r <? 0) eqn:E.
  - do 3 eexists. split; [reflexivity |]. apply Hfail. lia.
  - do 3 eexists. split; [reflexivity |]. apply Hok; [lia | apply u8_range].
Qed.

Lemma does_reg_write (T : transport) reg val h tr
    (Q : Z -> da7280_haptic -> list bus_event -> Prop) :
  (forall c, Q c h [BusWrite reg val c]) ->
  does (da7280_reg_write T reg val) h tr Q.
Proof.
  intros HQ. unfold does, da7280_reg_write. cbn [trace haptic]. eauto.
Qed.

(** [da7280_update_bits] always issues its read and then its write; the
    byte it modifies is the one read, or 254 after a failed read. *)
Lemma does_update_bits (T : transport) reg mask bits h tr
    (Q : Z -> da7280_haptic -> list bus_event -> Prop) :
  0 <= bits < 256 ->
  (forall r v c, 0 <= v < 256 -> c < 0 ->
     Q (- EIO) h
       [BusRead reg r v;
        BusWrite reg
          (Z.lor (Z.land (if r <? 0 then 254 else v) (Z.lnot mask)) bits) c]) ->
  (forall r v c, 0 <= v < 256 -> 0 <= c ->
     Q 0 h
       [BusRead reg r v;
        BusWrite reg
          (Z.lor (Z.land (if r <? 0 then 254 else v) (Z.lnot mask)) bits) c]) ->
  does (da7280_update_bits T reg mask bits) h tr Q.
Proof.
  intros Hb Hfail Hok. unfold does.
  pose proof (update_bits_run T reg mask bits {| haptic := h; trace := tr |} Hb)
    as H.
  cbv zeta in H. cbn [trace haptic] in H. rewrite H.
  do 3 eexists. split; [reflexivity |].
  destruct (_ <? 0) eqn:E.
  - apply Hfail; [apply u8_range | lia].
  - apply Hok; [apply u8_range | lia].
Qed.

Lemma nonzero_false (c : Z) : nonzero c = false -> c = 0.
Proof. unfold nonzero. destruct (Z.eqb_spec c 0); [auto | discriminate]. Qed.

Lemma nonzero_true (c : Z) : nonzero c = true -> c <> 0.
Proof. unfold nonzero. destruct (Z.eqb_spec c 0); [discriminate | auto]. Qed.

(** Settle a condition by computation or by arithmetic where that decides
    it, and split on it otherwise. *)
Ltac settle c :=
  first
    [ let E := fresh "E" in
      assert (E : c = false) by reflexivity; rewrite E; clear E
    | let E := fresh "E" in
      assert (E : c = true) by reflexivity; rewrite E; clear E
    | let E := fresh "E" in
      assert (E : c = false)
        by (unfold nonzero, EIO, EINVAL, EBUSY, EACCES in *; lia);
      rewrite E; clear E
    | let E := fresh "E" in
      assert (E : c = true)
        by (unfold nonzero, EIO, EINVAL, EBUSY, EACCES in *; lia);
      rewrite E; clear E
    | let E := fresh "E" in
      destruct c eqn:E;
      [ try apply nonzero_true in E | try (apply nonzero_false in E; subst) ] ].

(** [0 <= b < 256] for a byte [b] that is a variable or a constant. *)
Ltac byte_range :=
  first [ lia | apply u8_range
        | vm_compute; split; [discriminate | reflexivity] ].

(** Symbolic execution of one step of a driver function. *)
Ltac step :=
  first
    [ progress cbn [suspend_state magnitude dev_type op_mode bemf_sense_en
                    freq_track_en acc_en rapid_stop_en amp_pid_en
                    set_suspend_state set_bemf_sense_en clear_coin_flags]
    | lazymatch goal with
      | |- does (bind _ _) _ _ _ => apply does_bind
      | |- does (ret _) _ _ _ => apply does_ret
      | |- does get_haptic _ _ _ => apply does_get_haptic
      | |- does (put_haptic _) _ _ _ => apply does_put_haptic
      | |- does (msleep _) _ _ _ => apply does_msleep
      | |- does (da7280_reg_read _ _) _ _ _ => apply does_reg_read; intros
      | |- does (da7280_reg_write _ _ _) _ _ _ => apply does_reg_write; intros
      | |- does (da7280_update_bits _ _ _ _) _ _ _ =>
          apply does_update_bits; [try byte_range | intros | intros]
      | |- does (if ?c then _ else _) _ _ _ => settle c
      | |- does (let _ := _ in _) _ _ _ => cbv zeta
      | |- does (match ?p with pair _ _ => _ end) _ _ _ => cbv beta iota
      end ].

Ltac steps := repeat step; cbn [app].




Ltac forall_inv :=
  repeat match goal with
  | H : Forall _ (_ :: _) |- _ => inversion H; subst; clear H
  | H : Forall _ [] |- _ => clear H
  end; cbn [bus_ok] in *.

(** ** The interrupt handler stops before it clears *)

Lemma opmode_cleared (a : Z) :
  Z.land (Z.lor (Z.land a (Z.lnot DA7280_OPERATION_MODE_MASK)) 0)
         DA7280_OPERATION_MODE_MASK = 0.
Proof.
  rewrite Z.lor_0_r, <- Z.land_assoc.
  change (Z.land (Z.lnot DA7280_OPERATION_MODE_MASK) DA7280_OPERATION_MODE_MASK)
    with 0.
  apply Z.land_0_r.
Qed.



(** A chip reporting a pattern fault (0x10 in [IRQ_EVENT1]) while driving in
    mode 3 with standby enabled (0x0B in [TOP_CTL1]): the handler stops the
    drive, then clears the event. *)
Example irq_handler_on_pattern_fault :
  da7280_irq_handler
    (chip (fun reg => if reg =? DA7280_IRQ_EVENT1 then 0x10
                      else if reg =? DA7280_TOP_CTL1 then 0x0B else 0))
    world0 =
  (0, {| haptic := haptic0;
         trace := [BusRead DA7280_IRQ_EVENT1 0 0x10;
                   BusRead DA7280_IRQ_EVENT_WARNING_DIAG 0 0;
                   BusRead DA7280_IRQ_EVENT_PAT_DIAG 0 0;
                   BusRead DA7280_TOP_CTL1 0 0x0B;
                   BusWrite DA7280_TOP_CTL1 0x08 0;
                   BusWrite DA7280_IRQ_EVENT1 0x10 0] |}).
Proof. reflexivity. Qed.

Example irq_handler_on_empty_poll :
  da7280_irq_handler (steady_bus 0) world0 =
  (0, {| haptic := haptic0;
         trace := [BusRead DA7280_IRQ_EVENT1 0 0;
                   BusRead DA7280_IRQ_EVENT_WARNING_DIAG 0 0;
                   BusRead DA7280_IRQ_EVENT_PAT_DIAG 0 0] |}).
Proof. reflexivity. Qed.

(** ** Setters of one or two registers *)

Lemma u8_land_r (a m : Z) : 0 <= m < 256 -> u8 (Z.land a m) = Z.land a m.
Proof.
  intros Hm. apply u8_small. rewrite Z.land_comm. apply land_byte. exact Hm.
Qed.

Lemma land_low_bits (v n : Z) : 0 <= n -> 0 <= v < 2 ^ n -> Z.land v (Z.ones n) = v.
Proof.
  intros Hn Hv. rewrite Z.land_ones by exact Hn. apply Z.mod_small. exact Hv.
Qed.




Example set_resonant_freq_180 :
  da7280_set_resonant_freq (steady_bus 0) 180 world0 =
    (0, {| haptic := haptic0;
           trace := [BusWrite DA7280_FRQ_LRA_PER_H 0x20 0;
                     BusWrite DA7280_FRQ_LRA_PER_L 0x47 0] |}).
Proof. reflexivity. Qed.

(** C8: for a [u32] argument [val], [da7280_set_volt_rating] makes exactly
    one bus call, the write to [reg] of [val * 1000 / 23400 + 1] capped at
    255 when [val < 6000] and of the default 0x6B otherwise, and returns the
    code of that write: there is no path that rejects [val]. *)
Theorem set_volt_rating_byte (T : transport) (reg val : Z) (w : world) :
  0 <= val ->
  let byte :=
    if val <? 6000 then Z.min (val * 1000 / 23400 + 1) 255 else 0x6B in
  let c := i2c_register_write T (trace w) reg byte in
  da7280_set_volt_rating T reg val w =
    (c, {| haptic := haptic w; trace := trace w ++ [BusWrite reg byte c] |}).
Proof.
  intros Hval. cbv zeta.
  unfold da7280_set_volt_rating, DA7280_VOLT_RATE_MAX, DA7280_VOLT_STEP_uV,
    DA7280_NOM_VOLT_DFT.
  assert (Hbyte :
    u8 (Z.land
          (let voltage :=
             if val <? 6000
             then u32 (Z.quot (u32 (val * 1000)) 23400 + 1) else 107 in
           if voltage >? 255 then 255 else voltage) 255)
    = if val <? 6000 then Z.min (val * 1000 / 23400 + 1) 255 else 107).
  { cbv zeta. rewrite u8_land_r by lia.
    destruct (val <? 6000) eqn:E.
    - assert (Hq : 0 <= val * 1000 / 23400 <= 256).
      { split; [apply Z.div_pos; lia |].
        apply Z.lt_succ_r, Z.div_lt_upper_bound; lia. }
      unfold u32. rewrite (Z.mod_small (val * 1000)) by lia.
      rewrite Z.quot_div_nonneg by lia.
      rewrite Z.mod_small by lia.
      destruct (val * 1000 / 23400 + 1 >? 255) eqn:E2.
      + rewrite Z.min_r by lia. reflexivity.
      + rewrite Z.min_l by lia.
        apply (land_low_bits _ 8); [lia |].
        change (2 ^ 8) with 256. lia.
    - reflexivity. }
  unfold da7280_reg_write. cbv zeta in Hbyte. rewrite Hbyte. reflexivity.
Qed.

(** The header's nominal 1200 mV gives code 52; 6000 mV gives the default. *)
Lemma set_volt_rating_byte_witness :
  da7280_set_volt_rating (steady_bus 0) DA7280_ACTUATOR1 1200 world0 =
    (0, {| haptic := haptic0; trace := [BusWrite DA7280_ACTUATOR1 52 0] |})
  /\ da7280_set_volt_rating (steady_bus 0) DA7280_ACTUATOR2 6000 world0 =
    (0, {| haptic := haptic0; trace := [BusWrite DA7280_ACTUATOR2 0x6B 0] |}).
Proof.
  split.
  - exact (set_volt_rating_byte (steady_bus 0) DA7280_ACTUATOR1 1200 world0
             ltac:(lia)).
  - exact (set_volt_rating_byte (steady_bus 0) DA7280_ACTUATOR2 6000 world0
             ltac:(lia)).
Defined.

(** C10: for a byte [v], [da7280_set_override_val] makes exactly one bus
    call, the write to [TOP_CTL2] of [min v 127] when acceleration is
    enabled or the device is an LRA and of [v] otherwise, and returns the
    code of that write: no byte is rejected. *)
Theorem set_override_val_saturates (T : transport) (v : Z) (w : world) :
  0 <= v <= 255 ->
  let byte :=
    if nonzero (acc_en (haptic w)) || (dev_type (haptic w) =? DA7280_LRA)
    then Z.min v 127 else v in
  let c := i2c_register_write T (trace w) DA7280_TOP_CTL2 byte in
  da7280_set_override_val T v w =
    (c, {| haptic := haptic w;
           trace := trace w ++ [BusWrite DA7280_TOP_CTL2 byte c] |}).
Proof.
  intros Hv. cbv zeta. unfold da7280_set_override_val.
  replace (v >? 255) with false by lia.
  unfold bind, get_haptic.
  destruct (nonzero (acc_en (haptic w)) || (dev_type (haptic w) =? DA7280_LRA)).
  - assert (Hbyte : u8 (Z.land (if v >? 127 then 127 else v) 127) = Z.min v 127).
    { rewrite u8_land_r by lia.
      destruct (v >? 127) eqn:E.
      - rewrite Z.min_r by lia. reflexivity.
      - rewrite Z.min_l by lia. apply (land_low_bits _ 7); [lia |].
        change (2 ^ 7) with 128. lia. }
    unfold da7280_reg_write. rewrite Hbyte. reflexivity.
  - assert (Hbyte : u8 (Z.land (if v >? 255 then 255 else v) 255) = v).
    { rewrite u8_land_r by lia.
      replace (v >? 255) with false by lia.
      apply (land_low_bits _ 8); [lia |]. change (2 ^ 8) with 256. lia. }
    unfold da7280_reg_write. rewrite Hbyte. reflexivity.
Qed.

(** 200 on an LRA is written as 127; 200 on an ERM without acceleration is
    written as it is. *)
Lemma set_override_val_saturates_witness :
  da7280_set_override_val (steady_bus 0) 200 world0 =
    (0, {| haptic := haptic0; trace := [BusWrite DA7280_TOP_CTL2 127 0] |})
  /\ da7280_set_override_val (steady_bus 0) 200
       {| haptic := set_dev_type DA7280_ERM_BAR haptic0; trace := [] |} =
    (0, {| haptic := set_dev_type DA7280_ERM_BAR haptic0;
           trace := [BusWrite DA7280_TOP_CTL2 200 0] |}).
Proof.
  split.
  - exact (set_override_val_saturates (steady_bus 0) 200 world0 ltac:(lia)).
  - exact (set_override_val_saturates (steady_bus 0) 200
             {| haptic := set_dev_type DA7280_ERM_BAR haptic0; trace := [] |}
             ltac:(lia)).
Defined.

(** ** Suspend and resume *)

Lemma standby_cleared (a : Z) :
  Z.testbit (Z.lor (Z.land a (Z.lnot DA7280_STANDBY_EN_MASK)) 0) 3 = false.
Proof.
  rewrite Z.lor_0_r, Z.land_spec, Z.lnot_spec by lia.
  change (Z.testbit DA7280_STANDBY_EN_MASK 3) with true.
  apply andb_false_r.
Qed.

Lemma standby_set (a : Z) :
  Z.testbit (Z.lor (Z.land a (Z.lnot DA7280_STANDBY_EN_MASK))
                   DA7280_STANDBY_EN_MASK) 3 = true.
Proof.
  rewrite Z.lor_spec.
  change (Z.testbit DA7280_STANDBY_EN_MASK 3) with true.
  apply orb_true_r.
Qed.

Lemma lor_land_lnot (a m : Z) : Z.lor (Z.land a (Z.lnot m)) m = Z.lor a m.
Proof.
  apply Z.bits_inj'. intros n Hn.
  rewrite !Z.lor_spec, Z.land_spec, Z.lnot_spec by exact Hn.
  destruct (Z.testbit a n), (Z.testbit m n); reflexivity.
Qed.

Lemma world_eta (w : world) :
  {| haptic := haptic w; trace := trace w ++ [] |} = w.
Proof. destruct w as [h tr]. cbn. rewrite app_nil_r. reflexivity. Qed.

Lemma suspend_does (T : transport) h tr :
  does (da7280_suspend T) h tr (fun ret h' new =>
    if nonzero (suspend_state h) then ret = 0 /\ h' = h /\ new = []
    else
      exists r old x c,
        new = [BusRead DA7280_TOP_CTL1 r old; BusWrite DA7280_TOP_CTL1 x c] /\
        Z.testbit x 3 = false /\
        (0 <= r -> x = Z.land old (Z.lnot DA7280_STANDBY_EN_MASK)) /\
        (if c <? 0 then ret = - EIO /\ h' = h
         else ret = 0 /\ h' = set_suspend_state 1 h)).
Proof.
  unfold da7280_suspend.
  step. step. destruct (nonzero (suspend_state h)) eqn:Es.
  - steps. auto.
  - steps.
    + do 4 eexists. split; [reflexivity |].
      split; [apply standby_cleared |]. split.
      * intros Hr. rewrite Z.lor_0_r. replace (r <? 0) with false by lia.
        reflexivity.
      * replace (c <? 0) with true by lia. auto.
    + do 4 eexists. split; [reflexivity |].
      split; [apply standby_cleared |]. split.
      * intros Hr. rewrite Z.lor_0_r. replace (r <? 0) with false by lia.
        reflexivity.
      * replace (c <? 0) with false by lia. auto.
Qed.

Lemma resume_does (T : transport) h tr :
  does (da7280_resume T) h tr (fun ret h' new =>
    if suspend_state h =? 0 then ret = 0 /\ h' = h /\ new = []
    else
      exists r old x c,
        new = [BusRead DA7280_TOP_CTL1 r old; BusWrite DA7280_TOP_CTL1 x c] /\
        Z.testbit x 3 = true /\
        (0 <= r -> x = Z.lor old DA7280_STANDBY_EN_MASK) /\
        (if c <? 0 then ret = - EIO /\ h' = h
         else ret = 0 /\ h' = set_suspend_state 0 h)).
Proof.
  unfold da7280_resume.
  step. step. destruct (suspend_state h =? 0) eqn:Es.
  - steps. auto.
  - steps.
    + do 4 eexists. split; [reflexivity |].
      split; [apply standby_set |]. split.
      * intros Hr. replace (r <? 0) with false by lia. apply lor_land_lnot.
      * replace (c <? 0) with true by lia. auto.
    + do 4 eexists. split; [reflexivity |].
      split; [apply standby_set |]. split.
      * intros Hr. replace (r <? 0) with false by lia. apply lor_land_lnot.
      * replace (c <? 0) with false by lia. auto.
Qed.

(** Suspend and resume in general.  [da7280_suspend] on a driver that
    records the suspended state, and [da7280_resume] on one that records the
    resumed state, return 0 and leave driver state and bus log untouched.
    Otherwise the call makes two bus calls, a read of [TOP_CTL1] and a
    write to it of a byte [x] with the STANDBY_EN bit (bit 3) clear for
    suspend and set for resume; after a successful read of [old], [x] is
    [old] with that one bit changed.  The recorded state changes, and the
    result is 0, unless the write reports a negative code, which gives
    [-EIO] and the state as it was. *)
Theorem suspend_resume_idempotent (T : transport) (w : world) :
  (suspend_state (haptic w) <> 0 -> da7280_suspend T w = (0, w)) /\
  (suspend_state (haptic w) = 0 -> da7280_resume T w = (0, w)) /\
  (suspend_state (haptic w) = 0 ->
   exists ret h' r old x c,
     da7280_suspend T w =
       (ret, {| haptic := h';
                trace := trace w ++ [BusRead DA7280_TOP_CTL1 r old;
                                     BusWrite DA7280_TOP_CTL1 x c] |}) /\
     Z.testbit x 3 = false /\
     (0 <= r -> x = Z.land old (Z.lnot DA7280_STANDBY_EN_MASK)) /\
     (if c <? 0 then ret = - EIO /\ h' = haptic w
      else ret = 0 /\ h' = set_suspend_state 1 (haptic w))) /\
  (suspend_state (haptic w) <> 0 ->
   exists ret h' r old x c,
     da7280_resume T w =
       (ret, {| haptic := h';
                trace := trace w ++ [BusRead DA7280_TOP_CTL1 r old;
                                     BusWrite DA7280_TOP_CTL1 x c] |}) /\
     Z.testbit x 3 = true /\
     (0 <= r -> x = Z.lor old DA7280_STANDBY_EN_MASK) /\
     (if c <? 0 then ret = - EIO /\ h' = haptic w
      else ret = 0 /\ h' = set_suspend_state 0 (haptic w))).
Proof.
  destruct (does_elim _ w _ (suspend_does T (haptic w) (trace w)))
    as (rs & hs & ns & Hs & Ps).
  destruct (does_elim _ w _ (resume_does T (haptic w) (trace w)))
    as (rr & hr & nr & Hr & Pr).
  repeat split.
  - intros Hst. unfold nonzero in Ps.
    replace (suspend_state (haptic w) =? 0) with false in Ps by lia.
    destruct Ps as (-> & -> & ->). rewrite Hs, world_eta. reflexivity.
  - intros Hst. rewrite Hst in Pr. destruct Pr as (-> & -> & ->).
    rewrite Hr, world_eta. reflexivity.
  - intros Hst. unfold nonzero in Ps. rewrite Hst in Ps.
    destruct Ps as (r & old & x & c & -> & Hbit & Hx & Hret).
    exists rs, hs, r, old, x, c. auto.
  - intros Hst.
    replace (suspend_state (haptic w) =? 0) with false in Pr by lia.
    destruct Pr as (r & old & x & c & -> & Hbit & Hx & Hret).
    exists rr, hr, r, old, x, c. auto.
Qed.

(** The four cases on a chip holding 0x0B in [TOP_CTL1]. *)
Lemma suspend_resume_idempotent_witness :
  da7280_suspend (steady_bus 0x0B)
    {| haptic := set_suspend_state 1 haptic0; trace := [] |} =
    (0, {| haptic := set_suspend_state 1 haptic0; trace := [] |}) /\
  da7280_resume (steady_bus 0x0B) world0 = (0, world0) /\
  (exists ret h' r old x c,
     da7280_suspend (steady_bus 0x0B) world0 =
       (ret, {| haptic := h';
                trace := [BusRead DA7280_TOP_CTL1 r old;
                          BusWrite DA7280_TOP_CTL1 x c] |}) /\
     Z.testbit x 3 = false /\
     (0 <= r -> x = Z.land old (Z.lnot DA7280_STANDBY_EN_MASK)) /\
     (if c <? 0 then ret = - EIO /\ h' = haptic0
      else ret = 0 /\ h' = set_suspend_state 1 haptic0)) /\
  (exists ret h' r old x c,
     da7280_resume (steady_bus 0x0B)
       {| haptic := set_suspend_state 1 haptic0; trace := [] |} =
       (ret, {| haptic := h';
                trace := [BusRead DA7280_TOP_CTL1 r old;
                          BusWrite DA7280_TOP_CTL1 x c] |}) /\
     Z.testbit x 3 = true /\
     (0 <= r -> x = Z.lor old DA7280_STANDBY_EN_MASK) /\
     (if c <? 0 then ret = - EIO /\ h' = set_suspend_state 1 haptic0
      else ret = 0 /\ h' = set_suspend_state 0 (set_suspend_state 1 haptic0))).
Proof.
  pose (w1 := {| haptic := set_suspend_state 1 haptic0; trace := [] |}).
  split; [| split; [| split]].
  - exact (proj1 (suspend_resume_idempotent (steady_bus 0x0B) w1)
             ltac:(discriminate)).
  - exact (proj1 (proj2 (suspend_resume_idempotent (steady_bus 0x0B) world0))
             eq_refl).
  - exact (proj1 (proj2 (proj2
             (suspend_resume_idempotent (steady_bus 0x0B) world0))) eq_refl).
  - exact (proj2 (proj2 (proj2
             (suspend_resume_idempotent (steady_bus 0x0B) w1)))
             ltac:(discriminate)).
Defined.

Example suspend_twice :
  (s1 <- da7280_suspend (steady_bus 0x0B) ;;
   s2 <- da7280_suspend (steady_bus 0x0B) ;; ret (s1, s2)) world0 =
  ((0, 0), {| haptic := set_suspend_state 1 haptic0;
              trace := [BusRead DA7280_TOP_CTL1 0 0x0B;
                        BusWrite DA7280_TOP_CTL1 0x03 0] |}).
Proof. reflexivity. Qed.

(** C7: the state changes, and more than STANDBY_EN is written.  On a bus
    whose read of [TOP_CTL1] fails, [da7280_suspend] from the resumed state
    does not stop at the failed read: the byte read is held in a [u8], so
    the test for a negative value in [da7280_update_bits] never fires.  The
    call writes 0xF6 to [TOP_CTL1], which sets the seven other bits of the
    register whatever it held, returns 0 and records the suspended state;
    [da7280_resume] from the suspended state writes 0xFE in the same way and
    records the resumed state.  On a chip that answers the read with 0x0B
    the same calls write 0x03 and 0x0B, the byte read with the one bit
    changed. *)
Theorem suspend_resume_after_failed_read :
  da7280_suspend (deaf_bus (-5)) world0 =
    (0, {| haptic := set_suspend_state 1 haptic0;
           trace := [BusRead DA7280_TOP_CTL1 (-5) 0;
                     BusWrite DA7280_TOP_CTL1 0xF6 0] |}) /\
  da7280_resume (deaf_bus (-5))
    {| haptic := set_suspend_state 1 haptic0; trace := [] |} =
    (0, {| haptic := haptic0;
           trace := [BusRead DA7280_TOP_CTL1 (-5) 0;
                     BusWrite DA7280_TOP_CTL1 0xFE 0] |}) /\
  da7280_suspend (steady_bus 0x0B) world0 =
    (0, {| haptic := set_suspend_state 1 haptic0;
           trace := [BusRead DA7280_TOP_CTL1 0 0x0B;
                     BusWrite DA7280_TOP_CTL1 0x03 0] |}) /\
  da7280_resume (steady_bus 0x0B)
    {| haptic := set_suspend_state 1 haptic0; trace := [] |} =
    (0, {| haptic := haptic0;
           trace := [BusRead DA7280_TOP_CTL1 0 0x0B;
                     BusWrite DA7280_TOP_CTL1 0x0B 0] |}).
Proof. repeat split. Qed.

(** ** Pattern memory upload *)

Lemma bulk_log_snoc (reg : Z) (val : nat -> Z) (i k : nat) :
  bulk_log reg val i (S k) =
    BusWrite (reg + Z.of_nat i) (val i) 0 :: bulk_log reg val (S i) k.
Proof. reflexivity. Qed.







(** An unlocked, idle chip with base address 0xE5 takes three bytes, also
    when [size] is 1: the count comes from the base address alone. *)
Example mem_update_from_0xE5 :
  da7280_haptic_mem_update
    (chip (fun reg => if reg =? DA7280_MEM_CTL2 then 0x80
                      else if reg =? DA7280_MEM_CTL1 then 0xE5 else 0))
    (fun i => 10 + Z.of_nat i) 1 world0 =
  (0, {| haptic := haptic0;
         trace := [BusRead DA7280_IRQ_STATUS1 0 0;
                   BusRead DA7280_MEM_CTL2 0 0x80;
                   BusRead DA7280_MEM_CTL1 0 0xE5;
                   BusWrite 0xE5 10 0; BusWrite 0xE6 11 0;
                   BusWrite 0xE7 12 0] |}).
Proof. reflexivity. Qed.

(** A chip whose lock bit reads zero refuses the upload. *)
Example mem_update_locked :
  da7280_haptic_mem_update (steady_bus 0) (fun _ => 0) 3 world0 =
  (- EACCES, {| haptic := haptic0;
                trace := [BusRead DA7280_IRQ_STATUS1 0 0;
                          BusRead DA7280_MEM_CTL2 0 0] |}).
Proof. reflexivity. Qed.

(** A chip signalling a warning is busy. *)
Example mem_update_busy :
  da7280_haptic_mem_update (steady_bus 0x20) (fun _ => 0) 3 world0 =
  (- EBUSY, {| haptic := haptic0;
               trace := [BusRead DA7280_IRQ_STATUS1 0 0x20] |}).
Proof. reflexivity. Qed.

(** ** Current limit *)

(** The field [da7280_set_imax] writes is [imax_field]. *)
Lemma set_imax_does (T : transport) (U : user_data) (val : Z) h tr :
  val <= DA7280_IMAX_LIMIT ->
  does (da7280_set_imax T U val) h tr (fun ret h' new =>
    h' = h /\
    exists r old c rest,
      new = BusRead DA7280_ACTUATOR3 r old
              :: BusWrite DA7280_ACTUATOR3
                   (Z.lor (Z.land (if r <? 0 then 254 else old)
                                  (Z.lnot DA7280_IMAX_MASK))
                          (imax_field val)) c
              :: rest /\
      (c < 0 -> rest = [] /\ ret = - EIO) /\
      (0 <= c -> da7280_impd_check (USER_IMPD_mOhm U) <> 0 ->
       rest = [] /\ ret = - EINVAL) /\
      (0 <= c -> da7280_impd_check (USER_IMPD_mOhm U) = 0 ->
       exists lo c1 tl,
         rest = BusWrite DA7280_CALIB_V2I_L lo c1 :: tl /\
         (c1 <> 0 -> tl = [] /\ ret = c1) /\
         (c1 = 0 -> exists hi c2,
            tl = [BusWrite DA7280_CALIB_V2I_H hi c2] /\ ret = c2))).
Proof.
  intros Hval. unfold da7280_set_imax.
  replace (val >? DA7280_IMAX_LIMIT) with false by lia.
  cbv zeta. fold (imax_field val).
  assert (Hf : 0 <= imax_field val < 256) by apply u8_range.
  step. step.
  - steps. split; [reflexivity |]. do 4 eexists. split; [reflexivity |].
    repeat split; try reflexivity; lia.
  - step. destruct (nonzero (da7280_impd_check (USER_IMPD_mOhm U))) eqn:Ei.
    + apply nonzero_true in Ei. steps. split; [reflexivity |].
      do 4 eexists. split; [reflexivity |].
      split; [lia |]. split; [| intros; contradiction].
      intros _ _. split; [reflexivity |].
      unfold da7280_impd_check in *.
      destruct ((_ >? _) || (_ <? _)); [reflexivity | contradiction].
    + apply nonzero_false in Ei. steps.
      * split; [reflexivity |]. do 4 eexists. split; [reflexivity |].
        split; [lia |]. split; [intros; contradiction |].
        intros _ _. do 3 eexists. split; [reflexivity |].
        split; [intros; split; reflexivity | intros; contradiction].
      * split; [reflexivity |]. do 4 eexists. split; [reflexivity |].
        split; [lia |]. split; [intros; contradiction |].
        intros _ _. do 3 eexists. split; [reflexivity |].
        split; [intros; contradiction |].
        intros _. do 2 eexists. split; reflexivity.
Qed.

(** From 15 mA up to the ceiling the field is the clamped code. *)
Lemma imax_field_clamped (val : Z) :
  15 <= val <= DA7280_IMAX_LIMIT -> imax_field val = spec_imax_code val.
Proof.
  unfold DA7280_IMAX_LIMIT, imax_field, spec_imax_code, DA7280_IMAX_STEP.
  intros Hval. cbv zeta.
  assert (Hq : -1 <= Z.quot (val * 1000 - 28600) 7200 <= 31).
  { destruct (Z_lt_le_dec (val * 1000 - 28600) 0) as [Hneg | Hpos].
    - replace (val * 1000 - 28600) with (- (28600 - val * 1000)) by lia.
      rewrite Z.quot_opp_l by lia.
      rewrite Z.quot_div_nonneg by lia.
      assert (0 <= (28600 - val * 1000) / 7200 < 2).
      { split; [apply Z.div_pos; lia |].
        apply Z.div_lt_upper_bound; lia. }
      lia.
    - rewrite Z.quot_div_nonneg by lia.
      assert (0 <= (val * 1000 - 28600) / 7200 < 32).
      { split; [apply Z.div_pos; lia |].
        apply Z.div_lt_upper_bound; lia. }
      lia. }
  set (q := Z.quot (val * 1000 - 28600) 7200) in *.
  rewrite u8_land_r by (vm_compute; split; [discriminate | reflexivity]).
  change DA7280_IMAX_MASK with (Z.ones 5).
  destruct (q + 1 >? 31) eqn:E.
  - rewrite Z.min_l, Z.max_r by lia. reflexivity.
  - rewrite Z.min_r, Z.max_r by lia.
    apply land_low_bits; [lia |]. change (2 ^ 5) with 32. lia.
Qed.

(** C3 at 0 mA: the code computes [imax = -2], which passes the upper clamp
    untouched and is masked to 30, the field written to [ACTUATOR3]; the
    clamp to [0, 31] of the specification gives 0.  At 10 mA the field is
    31. *)
Theorem set_imax_zero_current_writes_30 :
  da7280_set_imax (steady_bus 0) header_user_data 0 world0 =
    (0, {| haptic := haptic0;
           trace := [BusRead DA7280_ACTUATOR3 0 0;
                     BusWrite DA7280_ACTUATOR3 30 0;
                     BusWrite DA7280_CALIB_V2I_L 13 0;
                     BusWrite DA7280_CALIB_V2I_H 0 0] |})
  /\ spec_imax_code 0 = 0
  /\ imax_field 10 = 31 /\ spec_imax_code 10 = 0.
Proof. repeat split. Qed.

(** ** The set-up path: which registers each step writes *)

Ltac footprint :=
  repeat constructor; cbn [no_write_to]; try assumption;
  try (intros Hreg; vm_compute in Hreg; discriminate Hreg).

(** The device-type switch keeps the recorded mode and back-EMF request, and
    does not write [TOP_CFG1].  With a valid frequency for an LRA it can only
    fail on the bus; with an invalid one it returns [-EINVAL] at once. *)
Lemma switch_does (T : transport) (U : user_data) h tr :
  does (set_user_data_switch T U) h tr (fun r h' new =>
    dev_type h' = dev_type h /\ op_mode h' = op_mode h /\
    bemf_sense_en h' = bemf_sense_en h /\
    Forall (no_write_to DA7280_TOP_CFG1) new /\
    ((dev_type h = DA7280_LRA ->
      50 <= u16 (USER_RESONANT_FREQ_Hz U) <= 300) ->
     Forall bus_ok new -> r = 0) /\
    (dev_type h = DA7280_LRA ->
     ~ 50 <= u16 (USER_RESONANT_FREQ_Hz U) <= 300 ->
     r = - EINVAL /\ new = [] /\ h' = h)).
Proof.
  unfold set_user_data_switch, da7280_set_resonant_freq,
    DA7280_MAX_RESONAT_FREQ, DA7280_MIN_RESONAT_FREQ.
  step. step.
  destruct (dev_type h =? DA7280_LRA) eqn:Ed.
  - apply Z.eqb_eq in Ed.
    destruct ((u16 (USER_RESONANT_FREQ_Hz U) >? 300)
              || (u16 (USER_RESONANT_FREQ_Hz U) <? 50)) eqn:Ef.
    + steps.
      split; [reflexivity |]. split; [reflexivity |]. split; [reflexivity |].
      split; [footprint |]. split.
      * intros Hv _. specialize (Hv Ed). lia.
      * intros _ _. repeat split.
    + steps.
      all: split; [reflexivity |]; split; [reflexivity |];
        split; [reflexivity |]; split; [footprint |]; split;
        [ intros _ Hok; forall_inv; try reflexivity; contradiction
        | intros _ Hn; exfalso; lia ].
  - apply Z.eqb_neq in Ed.
    destruct (dev_type h =? DA7280_ERM_COIN) eqn:Ec.
    + steps.
      all: split; [reflexivity |]; split; [reflexivity |];
        split; [reflexivity |]; split; [footprint |]; split;
        [ intros _ Hok; forall_inv; try reflexivity; exfalso; lia
        | intros Hd; contradiction ].
    + steps.
      split; [reflexivity |]. split; [reflexivity |]. split; [reflexivity |].
      split; [footprint |]. split; [reflexivity | intros Hd; contradiction].
Qed.

Lemma set_imax_footprint (T : transport) (U : user_data) (val : Z) h tr :
  does (da7280_set_imax T U val) h tr (fun ret h' new =>
    h' = h /\ Forall (no_write_to DA7280_TOP_CFG1) new /\
    (val > DA7280_IMAX_LIMIT -> ret = - EINVAL /\ new = [])).
Proof.
  unfold da7280_set_imax.
  destruct (val >? DA7280_IMAX_LIMIT) eqn:Ev.
  - steps. split; [reflexivity |]. split; [footprint |].
    intros _. split; reflexivity.
  - cbv zeta. step. step.
    + steps. split; [reflexivity |]. split; [footprint | intros; lia].
    + step.
      destruct (nonzero (da7280_impd_check (USER_IMPD_mOhm U))) eqn:Ei.
      * steps. split; [reflexivity |]. split; [footprint | intros; lia].
      * steps.
        all: split; [reflexivity |]; split; [footprint | intros; lia].
Qed.

Lemma set_volt_rating_footprint (T : transport) (reg val : Z) h tr :
  reg <> DA7280_TOP_CFG1 ->
  does (da7280_set_volt_rating T reg val) h tr (fun ret h' new =>
    h' = h /\ Forall (no_write_to DA7280_TOP_CFG1) new).
Proof.
  intros Hreg. unfold da7280_set_volt_rating. cbv zeta. steps.
  split; [reflexivity | footprint].
Qed.

Lemma pdata_setup_footprint (T : transport) (U : user_data) h tr :
  does (da7280_run_script T (da7280_pdata_setup U)) h tr (fun ret h' new =>
    h' = h /\ Forall (no_write_to DA7280_TOP_CFG1) new).
Proof.
  unfold da7280_pdata_setup. cbn [da7280_run_script]. steps.
  all: split; [reflexivity | footprint].
Qed.

(** Bit 4 of the combined [TOP_CFG1] value is the back-EMF request. *)
Lemma cfg1_val_bit4 (a f ac rs ap : Z) :
  Z.testbit
    (u8 (Z.lor (Z.lor (Z.lor (Z.lor (Z.lor
           (Z.shiftl (tern a) DA7280_ACTUATOR_TYPE_SHIFT)
           (Z.shiftl (tern 0) DA7280_BEMF_SENSE_EN_SHIFT))
           (Z.shiftl (tern f) DA7280_FREQ_TRACK_EN_SHIFT))
           (Z.shiftl (tern ac) DA7280_ACCELERATION_EN_SHIFT))
           (Z.shiftl (tern rs) DA7280_RAPID_STOP_EN_SHIFT))
           (Z.shiftl (tern ap) DA7280_AMP_PID_EN_SHIFT))) 4 = false.
Proof.
  unfold tern.
  destruct (a =? 0), (f =? 0), (ac =? 0), (rs =? 0), (ap =? 0); reflexivity.
Qed.

Lemma cfg1_update_bit4 (held val : Z) :
  Z.testbit val 4 = false ->
  Z.testbit
    (Z.lor (Z.land held
              (Z.lnot (u8 (Z.lor (Z.lor (Z.lor (Z.lor (Z.lor
                 DA7280_ACTUATOR_TYPE_MASK DA7280_BEMF_SENSE_EN_MASK)
                 DA7280_FREQ_TRACK_EN_MASK) DA7280_ACCELERATION_EN_MASK)
                 DA7280_RAPID_STOP_EN_MASK) DA7280_AMP_PID_EN_MASK))))
           val) 4 = false.
Proof.
  intros Hval. rewrite Z.lor_spec, Z.land_spec, Hval, orb_false_r.
  apply andb_false_r.
Qed.

Ltac call L :=
  apply does_bind; eapply does_weaken; [apply L | cbv beta].

(** ** Back-EMF sensing in the waveform-memory modes *)

Ltac call_volt :=
  apply does_bind; eapply does_weaken;
  [ apply set_volt_rating_footprint;
    let Hq := fresh in intros Hq; vm_compute in Hq; discriminate Hq
  | cbv beta ].

Ltac nowrite :=
  repeat first
    [ assumption
    | apply Forall_nil
    | apply Forall_app; split
    | apply Forall_cons;
      [ cbn [no_write_to]; first [ exact I | discriminate ] | ] ].

(** A leaf of the set-up run at or after the [TOP_CFG1] update: the log is
    the switch's [sw], the read-modify-write and what followed. *)
Ltac cfg1_leaf sw :=
  exists sw; eexists;
  split; [ rewrite <- ?app_assoc; reflexivity | ];
  split; [ assumption | ];
  split;
    [ right; do 5 eexists;
      split; [ cbn [app]; reflexivity | ];
      split; [ apply cfg1_update_bit4, cfg1_val_bit4 | nowrite ]
    | split; [ intros _ _; cbn [app]; discriminate | ] ].

Lemma set_user_data_bemf_does (T : transport) (U : user_data) h tr :
  DA7280_RTWM_MODE <= u8 (USER_OP_MODE U) ->
  does (da7280_set_user_data T U) h tr (fun ret h' new =>
    exists sw rest,
      new = sw ++ rest /\
      Forall (no_write_to DA7280_TOP_CFG1) sw /\
      ((rest = [] /\ ret <> 0) \/
       exists r old x c post,
         rest = BusRead DA7280_TOP_CFG1 r old
                  :: BusWrite DA7280_TOP_CFG1 x c :: post /\
         Z.testbit x 4 = false /\
         Forall (no_write_to DA7280_TOP_CFG1) post) /\
      ((u8 (USER_HAPTIC_DEV U) = DA7280_LRA ->
        50 <= u16 (USER_RESONANT_FREQ_Hz U) <= 300) ->
       Forall bus_ok sw -> rest <> []) /\
      (ret = 0 -> bemf_sense_en h' = 0)).
Proof.
  intros Hmode. unfold da7280_set_user_data.
  step. step. step. step.
  call switch_does.
  intros r h1 new1 (Hdev & Hop & Hbemf & Hfp & Hlive & _).
  cbn [op_mode dev_type] in Hop, Hdev, Hlive.
  destruct (nonzero r) eqn:Er.
  { apply nonzero_true in Er. step. cbn [app].
    exists new1, []. split; [reflexivity |]. split; [assumption |].
    split; [left; split; [reflexivity | exact Er] |].
    split; [| intros Hz; contradiction].
    intros Hv Hok. exfalso. apply Er. apply Hlive; assumption. }
  step. step.
  replace (op_mode h1 >=? DA7280_RTWM_MODE) with true by lia.
  step. step. step. step. step. cbv zeta. step. step.
  { (* the TOP_CFG1 write failed *)
    steps. cfg1_leaf new1. intros Hz; discriminate Hz. }
  step.
  call set_imax_footprint. intros r2 h2 new2 (-> & Hfp2 & _).
  destruct (nonzero r2) eqn:Er2.
  { apply nonzero_true in Er2. step. cbn [app].
    cfg1_leaf new1. intros; contradiction. }
  call_volt. intros r3 h3 new3 (-> & Hfp3).
  destruct (nonzero r3) eqn:Er3.
  { apply nonzero_true in Er3. step. cbn [app].
    cfg1_leaf new1. intros; contradiction. }
  call_volt. intros r4 h4 new4 (-> & Hfp4).
  destruct (nonzero r4) eqn:Er4.
  { apply nonzero_true in Er4. step. cbn [app].
    cfg1_leaf new1. intros; contradiction. }
  call pdata_setup_footprint. intros r5 h5 new5 (-> & Hfp5).
  destruct (nonzero r5) eqn:Er5.
  { step. cbn [app]. cfg1_leaf new1. intros Hz; discriminate Hz. }
  step. cbn [app]. cfg1_leaf new1. intros _. reflexivity.
Qed.

(** C9: with a configured operation mode of 3 or more, whatever
    [USER_BEMF_SENS_EN] asks for.  The log of [da7280_set_user_data] is the
    device-type switch's calls [sw], none of them a write to [TOP_CFG1],
    followed by [rest]; [rest] is empty, the call having returned an error
    from the switch, or it starts with the combined update, a read of
    [TOP_CFG1] and a write to it of a byte with BEMF_SENSE_EN (bit 4) clear,
    and holds no other write to [TOP_CFG1].  The update is made whenever the
    switch's bus calls succeed and, for an LRA, the resonant frequency is
    within [50, 300]; so the only byte ever written to [TOP_CFG1] has the
    bit clear, and a call that returns 0 has written it and records the
    request as off. *)
Theorem bemf_sense_forced_off (T : transport) (U : user_data) (w : world) :
  DA7280_RTWM_MODE <= u8 (USER_OP_MODE U) ->
  exists ret h' sw rest,
    da7280_set_user_data T U w =
      (ret, {| haptic := h'; trace := trace w ++ sw ++ rest |}) /\
    Forall (no_write_to DA7280_TOP_CFG1) sw /\
    ((rest = [] /\ ret <> 0) \/
     exists r old x c post,
       rest = BusRead DA7280_TOP_CFG1 r old
                :: BusWrite DA7280_TOP_CFG1 x c :: post /\
       Z.testbit x 4 = false /\
       Forall (no_write_to DA7280_TOP_CFG1) post) /\
    ((u8 (USER_HAPTIC_DEV U) = DA7280_LRA ->
      50 <= u16 (USER_RESONANT_FREQ_Hz U) <= 300) ->
     Forall bus_ok sw ->
     exists r old x c post,
       rest = BusRead DA7280_TOP_CFG1 r old
                :: BusWrite DA7280_TOP_CFG1 x c :: post /\
       Z.testbit x 4 = false) /\
    (forall x c, In (BusWrite DA7280_TOP_CFG1 x c) (sw ++ rest) ->
                 Z.testbit x 4 = false) /\
    (ret = 0 -> bemf_sense_en h' = 0 /\ rest <> []).
Proof.
  intros Hmode.
  destruct (does_elim _ w _
              (set_user_data_bemf_does T U (haptic w) (trace w) Hmode))
    as (ret & h' & new & Hrun & sw & rest & -> & Hsw & Hshape & Hlive & Hret).
  exists ret, h', sw, rest.
  split; [exact Hrun |]. split; [exact Hsw |]. split; [exact Hshape |].
  split; [| split].
  - intros Hv Hok. specialize (Hlive Hv Hok).
    destruct Hshape as [(Hnil & _) | (r & old & x & c & post & Hrest & Hbit & _)].
    + contradiction.
    + exists r, old, x, c, post. split; assumption.
  - intros x c Hin. apply in_app_or in Hin. destruct Hin as [Hin | Hin].
    + rewrite Forall_forall in Hsw. specialize (Hsw _ Hin).
      cbn [no_write_to] in Hsw. contradiction.
    + destruct Hshape
        as [(-> & _) | (r & old & x0 & c0 & post & -> & Hbit & Hpost)].
      * contradiction.
      * cbn [In] in Hin. destruct Hin as [Hin | [Hin | Hin]].
        -- discriminate Hin.
        -- inversion Hin; subst. exact Hbit.
        -- rewrite Forall_forall in Hpost. specialize (Hpost _ Hin).
           cbn [no_write_to] in Hpost. contradiction.
  - intros Hz. split; [exact (Hret Hz) |].
    destruct Hshape as [(_ & Hne) | (r & old & x & c & post & -> & _)].
    + contradiction.
    + discriminate.
Qed.

(** The whole set-up on the header's data in mode 3: [TOP_CFG1] receives
    0x0E (frequency tracking, acceleration and rapid stop, no back-EMF
    sensing), where mode 1 gives 0x1E. *)
Example set_user_data_rtwm :
  da7280_set_user_data (steady_bus 0)
    (with_op_mode DA7280_RTWM_MODE header_user_data) world0 =
  (0, {| haptic :=
           {| suspend_state := 0; magnitude := 0; dev_type := 0; op_mode := 3;
              bemf_sense_en := 0; freq_track_en := 1; acc_en := 1;
              rapid_stop_en := 1; amp_pid_en := 0 |};
         trace := [BusWrite DA7280_FRQ_LRA_PER_H 0x20 0;
                   BusWrite DA7280_FRQ_LRA_PER_L 0x47 0;
                   BusRead DA7280_TOP_CFG1 0 0;
                   BusWrite DA7280_TOP_CFG1 0x0E 0;
                   BusRead DA7280_ACTUATOR3 0 0;
                   BusWrite DA7280_ACTUATOR3 16 0;
                   BusWrite DA7280_CALIB_V2I_L 130 0;
                   BusWrite DA7280_CALIB_V2I_H 0 0;
                   BusWrite DA7280_ACTUATOR1 52 0;
                   BusWrite DA7280_ACTUATOR2 60 0;
                   BusWrite DA7280_IRQ_EVENT1 0xFF 0;
                   BusWrite DA7280_TOP_CTL2 0x59 0;
                   BusWrite DA7280_SEQ_CTL2 0x37 0;
                   BusWrite DA7280_GPI_0_CTL 0x3A 0;
                   BusWrite DA7280_GPI_1_CTL 0x3A 0;
                   BusWrite DA7280_GPI_2_CTL 0x3A 0] |}).
Proof. reflexivity. Qed.

Example set_user_data_dro_keeps_bemf :
  let run := da7280_set_user_data (steady_bus 0) header_user_data world0 in
  fst run = 0 /\ In (BusWrite DA7280_TOP_CFG1 0x1E 0) (trace (snd run)).
Proof. vm_compute. auto 10. Qed.

(** The header's platform data moved to mode 3 (RTWM), still asking for
    back-EMF sensing, on a chip that answers every call: the frequency is
    in range and the switch's two writes succeed, so the update of
    [TOP_CFG1] is made, with bit 4 clear, and the call returns 0 with the
    request recorded as off. *)
Lemma bemf_sense_forced_off_witness :
  exists ret h' sw rest,
    da7280_set_user_data (steady_bus 0)
      (with_op_mode DA7280_RTWM_MODE header_user_data) world0 =
      (ret, {| haptic := h'; trace := sw ++ rest |}) /\
    Forall (no_write_to DA7280_TOP_CFG1) sw /\
    (exists r old x c post,
       rest = BusRead DA7280_TOP_CFG1 r old
                :: BusWrite DA7280_TOP_CFG1 x c :: post /\
       Z.testbit x 4 = false) /\
    ret = 0 /\ bemf_sense_en h' = 0.
Proof.
  destruct (bemf_sense_forced_off (steady_bus 0)
              (with_op_mode DA7280_RTWM_MODE header_user_data) world0
              ltac:(vm_compute; discriminate))
    as (ret & h' & sw & rest & Hrun & Hsw & _ & Hlive & _ & Hret).
  change (trace world0 ++ sw ++ rest) with (sw ++ rest) in Hrun.
  pose proof (eq_trans (eq_sym set_user_data_rtwm) Hrun) as Heq.
  inversion Heq as [[Hr Hh Htr]].
  assert (Hok : Forall bus_ok (sw ++ rest)).
  { rewrite <- Htr. repeat constructor; cbn; lia. }
  apply Forall_app in Hok. destruct Hok as [Hok _].
  exists ret, h', sw, rest.
  split; [exact Hrun |]. split; [exact Hsw |].
  split; [apply Hlive; [intros _; vm_compute; split; discriminate | exact Hok] |].
  split; [symmetry; exact Hr |]. apply Hret. symmetry. exact Hr.
Defined.

(** ** Validation in the set-up path *)

Lemma set_user_data_bad_freq_does (T : transport) (U : user_data) h tr :
  u8 (USER_HAPTIC_DEV U) = DA7280_LRA ->
  ~ 50 <= u16 (USER_RESONANT_FREQ_Hz U) <= 300 ->
  does (da7280_set_user_data T U) h tr (fun ret h' new =>
    ret = - EINVAL /\ new = []).
Proof.
  intros Hdev Hfreq. unfold da7280_set_user_data.
  step. step. step. step.
  call switch_does.
  intros r h1 new1 (_ & _ & _ & _ & _ & Hbad).
  destruct (Hbad Hdev Hfreq) as (-> & -> & ->).
  steps. split; reflexivity.
Qed.

Lemma set_user_data_over_current_does (T : transport) (U : user_data) h tr :
  USER_IMAX_mA U > DA7280_IMAX_LIMIT ->
  (u8 (USER_HAPTIC_DEV U) = DA7280_LRA ->
   50 <= u16 (USER_RESONANT_FREQ_Hz U) <= 300) ->
  does (da7280_set_user_data T U) h tr (fun ret h' new =>
    ret <> 0 /\
    (Forall bus_ok new ->
     ret = - EINVAL /\
     exists pre r old x,
       new = pre ++ [BusRead DA7280_TOP_CFG1 r old;
                     BusWrite DA7280_TOP_CFG1 x 0])).
Proof.
  intros Himax Hfreq. unfold da7280_set_user_data.
  step. step. step. step.
  call switch_does.
  intros r h1 new1 (_ & _ & _ & _ & Hgood & _).
  cbn [dev_type] in Hgood. specialize (Hgood Hfreq).
  destruct (nonzero r) eqn:Er.
  { apply nonzero_true in Er. step. cbn [app]. rewrite ?app_nil_r.
    split; [exact Er |]. intros Hok. elim Er. exact (Hgood Hok). }
  steps.
  all: try (eapply does_weaken; [apply set_imax_footprint | cbv beta];
            intros r2 h2 new2 (-> & _ & Hrej);
            destruct (Hrej Himax) as (-> & ->); steps).
  all: rewrite ?app_nil_r; split; [discriminate |]; intros Hok;
    apply Forall_app in Hok; destruct Hok as (_ & Hok); forall_inv; subst;
    first [ exfalso; lia
          | split; [reflexivity |]; do 4 eexists; reflexivity ].
Qed.

(** C4, as the code has it.  A frequency outside [50, 300] for an LRA makes
    [da7280_set_user_data] return [-EINVAL] with the bus log untouched, and
    a current above 252 makes [da7280_set_imax] return [-EINVAL] with the
    bus log untouched.  The impedance check of [da7280_set_imax] comes after
    its update of [ACTUATOR3] has been written; and inside
    [da7280_set_user_data] a current above 252 is refused after the
    [TOP_CFG1] update, which on a working bus is the last thing written
    before the error. *)
Theorem validation_error_sites (T : transport) (U : user_data) (w : world) :
  (u8 (USER_HAPTIC_DEV U) = DA7280_LRA ->
   ~ 50 <= u16 (USER_RESONANT_FREQ_Hz U) <= 300 ->
   exists h',
     da7280_set_user_data T U w =
       (- EINVAL, {| haptic := h'; trace := trace w |})) /\
  (forall val, val > DA7280_IMAX_LIMIT ->
     da7280_set_imax T U val w = (- EINVAL, w)) /\
  (forall val, val <= DA7280_IMAX_LIMIT ->
     ~ DA7280_IMPD_MIN <= USER_IMPD_mOhm U <= DA7280_IMPD_MAX ->
     exists ret r old x c,
       da7280_set_imax T U val w =
         (ret, {| haptic := haptic w;
                  trace := trace w ++ [BusRead DA7280_ACTUATOR3 r old;
                                       BusWrite DA7280_ACTUATOR3 x c] |}) /\
       (c < 0 -> ret = - EIO) /\ (0 <= c -> ret = - EINVAL)) /\
  (USER_IMAX_mA U > DA7280_IMAX_LIMIT ->
   (u8 (USER_HAPTIC_DEV U) = DA7280_LRA ->
    50 <= u16 (USER_RESONANT_FREQ_Hz U) <= 300) ->
   exists ret h' new,
     da7280_set_user_data T U w =
       (ret, {| haptic := h'; trace := trace w ++ new |}) /\
     ret <> 0 /\
     (Forall bus_ok new ->
      ret = - EINVAL /\
      exists pre r old x,
        new = pre ++ [BusRead DA7280_TOP_CFG1 r old;
                      BusWrite DA7280_TOP_CFG1 x 0])).
Proof.
  split; [| split; [| split]].
  - intros Hdev Hfreq.
    destruct (does_elim _ w _
                (set_user_data_bad_freq_does T U (haptic w) (trace w)
                   Hdev Hfreq))
      as (ret & h' & new & Hrun & -> & ->).
    exists h'. rewrite Hrun, app_nil_r. reflexivity.
  - intros val Hval. unfold da7280_set_imax.
    replace (val >? DA7280_IMAX_LIMIT) with true by lia. reflexivity.
  - intros val Hval Himpd.
    assert (Hchk : da7280_impd_check (USER_IMPD_mOhm U) <> 0).
    { unfold da7280_impd_check.
      replace ((USER_IMPD_mOhm U >? DA7280_IMPD_MAX)
               || (USER_IMPD_mOhm U <? DA7280_IMPD_MIN)) with true by lia.
      discriminate. }
    destruct (does_elim _ w _
                (set_imax_does T U val (haptic w) (trace w) Hval))
      as (ret & h' & new & Hrun & -> & r & old & c & rest & -> & Hneg & Hbad & _).
    assert (Hrest : rest = []).
    { destruct (Z_lt_le_dec c 0) as [Hc | Hc];
        [apply (Hneg Hc) | apply (Hbad Hc Hchk)]. }
    subst rest. do 5 eexists. split; [exact Hrun |].
    split; [intros Hc; apply (Hneg Hc) | intros Hc; apply (Hbad Hc Hchk)].
  - intros Himax Hfreq.
    exact (does_elim _ w _
             (set_user_data_over_current_does T U (haptic w) (trace w)
                Himax Hfreq)).
Qed.

(** The four parts on the header's platform data, changed in one macro. *)
Lemma validation_error_sites_witness :
  (exists h',
     da7280_set_user_data (steady_bus 0) (with_freq 40 header_user_data)
       world0 = (- EINVAL, {| haptic := h'; trace := [] |})) /\
  da7280_set_imax (steady_bus 0) header_user_data 253 world0 =
    (- EINVAL, world0) /\
  (exists ret r old x c,
     da7280_set_imax (steady_bus 0) (with_impd 3000 header_user_data) 137
       world0 =
       (ret, {| haptic := haptic0;
                trace := [BusRead DA7280_ACTUATOR3 r old;
                          BusWrite DA7280_ACTUATOR3 x c] |}) /\
     (c < 0 -> ret = - EIO) /\ (0 <= c -> ret = - EINVAL)) /\
  (exists ret h' new,
     da7280_set_user_data (steady_bus 0) (with_imax 300 header_user_data)
       world0 = (ret, {| haptic := h'; trace := new |}) /\
     ret <> 0 /\
     (Forall bus_ok new ->
      ret = - EINVAL /\
      exists pre r old x,
        new = pre ++ [BusRead DA7280_TOP_CFG1 r old;
                      BusWrite DA7280_TOP_CFG1 x 0])).
Proof.
  split; [| split; [| split]].
  - exact (proj1 (validation_error_sites (steady_bus 0)
                    (with_freq 40 header_user_data) world0)
             eq_refl ltac:(vm_compute; intros [H _]; apply H; reflexivity)).
  - exact (proj1 (proj2 (validation_error_sites (steady_bus 0)
                           header_user_data world0)) 253 eq_refl).
  - exact (proj1 (proj2 (proj2 (validation_error_sites (steady_bus 0)
                                  (with_impd 3000 header_user_data) world0)))
             137 ltac:(discriminate)
             ltac:(vm_compute; intros [H _]; apply H; reflexivity)).
  - exact (proj2 (proj2 (proj2 (validation_error_sites (steady_bus 0)
                                  (with_imax 300 header_user_data) world0)))
             eq_refl ltac:(intros _; vm_compute; split; discriminate)).
Defined.

(** C4 as stated fails: with the header's data and a current of 300 mA the
    set-up returns [-EINVAL] after the frequency registers and [TOP_CFG1]
    have been written; with an impedance of 3000 mOhm it returns [-EINVAL]
    after [ACTUATOR3] has been written as well. *)
Lemma validation_after_writes_counterexample :
  da7280_set_user_data (steady_bus 0) (with_imax 300 header_user_data) world0 =
    (- EINVAL,
     {| haptic :=
          {| suspend_state := 0; magnitude := 0; dev_type := 0; op_mode := 1;
             bemf_sense_en := 1; freq_track_en := 1; acc_en := 1;
             rapid_stop_en := 1; amp_pid_en := 0 |};
        trace := [BusWrite DA7280_FRQ_LRA_PER_H 0x20 0;
                  BusWrite DA7280_FRQ_LRA_PER_L 0x47 0;
                  BusRead DA7280_TOP_CFG1 0 0;
                  BusWrite DA7280_TOP_CFG1 0x1E 0] |})
  /\
  da7280_set_user_data (steady_bus 0) (with_impd 3000 header_user_data) world0 =
    (- EINVAL,
     {| haptic :=
          {| suspend_state := 0; magnitude := 0; dev_type := 0; op_mode := 1;
             bemf_sense_en := 1; freq_track_en := 1; acc_en := 1;
             rapid_stop_en := 1; amp_pid_en := 0 |};
        trace := [BusWrite DA7280_FRQ_LRA_PER_H 0x20 0;
                  BusWrite DA7280_FRQ_LRA_PER_L 0x47 0;
                  BusRead DA7280_TOP_CFG1 0 0;
                  BusWrite DA7280_TOP_CFG1 0x1E 0;
                  BusRead DA7280_ACTUATOR3 0 0;
                  BusWrite DA7280_ACTUATOR3 16 0] |}).
Proof. split; reflexivity. Qed.

(** * Further properties of the driver *)

(** ** Register fields *)

Lemma bits_above (v w n : Z) :
  0 <= w -> 0 <= v < 2 ^ w -> w <= n -> Z.testbit v n = false.
Proof.
  intros Hw Hv Hn. rewrite <- (Z.mod_small v (2 ^ w)) by exact Hv.
  apply Z.mod_pow2_bits_high. lia.
Qed.

(** Writing [v] into the field of width [w] at shift [s]: the field reads
    back as [v], and nothing outside the field changes. *)
Lemma field_update (old v s w : Z) :
  0 <= s -> 0 <= w -> 0 <= v < 2 ^ w ->
  let m := Z.shiftl (Z.ones w) s in
  let x := Z.lor (Z.land old (Z.lnot m)) (Z.shiftl v s) in
  Z.land (Z.shiftr x s) (Z.ones w) = v /\
  Z.land x (Z.lnot m) = Z.land old (Z.lnot m).
Proof.
  intros Hs Hw Hv. cbv zeta. split.
  - apply Z.bits_inj'. intros n Hn.
    rewrite Z.land_spec, Z.shiftr_spec, Z.lor_spec, Z.land_spec, Z.lnot_spec,
      !Z.shiftl_spec, Z.testbit_ones_nonneg by lia.
    replace (n + s - s) with n by lia.
    rewrite Z.testbit_ones_nonneg by lia.
    destruct (n <? w) eqn:E.
    + cbn. rewrite andb_false_r, andb_true_r. reflexivity.
    + rewrite andb_false_r. symmetry. apply (bits_above v w); lia.
  - apply Z.bits_inj'. intros n Hn.
    rewrite !Z.land_spec, Z.lor_spec, Z.land_spec, !Z.lnot_spec by lia.
    destruct (Z_lt_le_dec n s) as [Hlt | Hge].
    + rewrite (Z.shiftl_spec_low v) by lia. rewrite orb_false_r.
      destruct (Z.testbit old n), (Z.testbit (Z.shiftl (Z.ones w) s) n);
        reflexivity.
    + rewrite !Z.shiftl_spec, Z.testbit_ones_nonneg by lia.
      destruct (n - s <? w) eqn:E.
      * cbn. rewrite !andb_false_r. reflexivity.
      * rewrite (bits_above v w) by lia.
        rewrite orb_false_r. cbn. rewrite !andb_true_r. reflexivity.
Qed.

Lemma shifted_field_byte (v s w : Z) :
  0 <= s -> 0 <= w -> s + w <= 8 -> 0 <= v < 2 ^ w ->
  0 <= Z.shiftl v s < 256.
Proof.
  intros Hs Hw Hsw Hv. rewrite Z.shiftl_mul_pow2 by lia.
  assert (H8 : 2 ^ w * 2 ^ s <= 2 ^ 8).
  { rewrite <- Z.pow_add_r by lia. apply Z.pow_le_mono_r; lia. }
  assert (0 < 2 ^ s) by (apply Z.pow_pos_nonneg; lia).
  change (2 ^ 8) with 256 in H8. nia.
Qed.

(** A setter of one field through [da7280_update_bits]. *)
Lemma update_field_does (T : transport) (reg v s w : Z) h tr :
  0 <= s -> 0 <= w -> s + w <= 8 -> 0 <= v < 2 ^ w ->
  does (da7280_update_bits T reg (Z.shiftl (Z.ones w) s) (u8 (Z.shiftl v s)))
    h tr (fun ret h' new =>
      h' = h /\
      exists r old x c,
        new = [BusRead reg r old; BusWrite reg x c] /\
        ret = (if c <? 0 then - EIO else 0) /\
        Z.land (Z.shiftr x s) (Z.ones w) = v /\
        (0 <= r ->
         Z.land x (Z.lnot (Z.shiftl (Z.ones w) s)) =
         Z.land old (Z.lnot (Z.shiftl (Z.ones w) s)))).
Proof.
  intros Hs Hw Hsw Hv.
  rewrite u8_small by (apply shifted_field_byte with (w := w); assumption).
  apply does_update_bits.
  - apply shifted_field_byte with (w := w); assumption.
  - intros r old c Hold Hc. split; [reflexivity |].
    exists r, old. do 2 eexists. split; [reflexivity |].
    replace (c <? 0) with true by lia. split; [reflexivity |].
    split; [apply field_update; assumption |].
    intros Hr. replace (r <? 0) with false by lia.
    apply field_update; assumption.
  - intros r old c Hold Hc. split; [reflexivity |].
    exists r, old. do 2 eexists. split; [reflexivity |].
    replace (c <? 0) with false by lia. split; [reflexivity |].
    split; [apply field_update; assumption |].
    intros Hr. replace (r <? 0) with false by lia.
    apply field_update; assumption.
Qed.


(** ** Field setters *)




(** The two runs of the mode setter, call by call: the chip's 0x3A becomes
    0x3E, and after a failed read 0xFA is written, with result 0. *)
Example set_gpi_mod_runs :
  da7280_set_gpi_mod (steady_bus 0x3A) 1 1 world0 =
    (0, {| haptic := haptic0;
           trace := [BusRead DA7280_GPI_1_CTL 0 0x3A;
                     BusWrite DA7280_GPI_1_CTL 0x3E 0] |}) /\
  da7280_set_gpi_mod (deaf_bus (-5)) 1 0 world0 =
    (0, {| haptic := haptic0;
           trace := [BusRead DA7280_GPI_1_CTL (-5) 0;
                     BusWrite DA7280_GPI_1_CTL 0xFA 0] |}).
Proof. split; reflexivity. Qed.






(** ** Drive level and acceleration *)

Lemma set_override_val_does (T : transport) (v : Z) h tr :
  0 <= v <= 255 ->
  does (da7280_set_override_val T v) h tr (fun ret h' new =>
    h' = h /\
    new = [BusWrite DA7280_TOP_CTL2
             (if nonzero (acc_en h) || (dev_type h =? DA7280_LRA)
              then Z.min v 127 else v) ret]).
Proof.
  intros Hv. unfold da7280_set_override_val. cbv zeta.
  replace (v >? 255) with false by lia.
  step. step.
  destruct (nonzero (acc_en h) || (dev_type h =? DA7280_LRA)).
  - replace (u8 (Z.land (if v >? 127 then 127 else v) 127)) with (Z.min v 127).
    + step. split; reflexivity.
    + rewrite u8_land_r by lia. destruct (v >? 127) eqn:E.
      * rewrite Z.min_r by lia. reflexivity.
      * rewrite Z.min_l by lia. symmetry.
        apply (land_low_bits _ 7); [lia |]. change (2 ^ 7) with 128. lia.
  - replace (u8 (Z.land (if v >? 255 then 255 else v) 255)) with v.
    + step. split; reflexivity.
    + rewrite u8_land_r by lia. replace (v >? 255) with false by lia.
      symmetry. apply (land_low_bits _ 8); [lia |].
      change (2 ^ 8) with 256. lia.
Qed.

(** X5: switching acceleration on the chip with [da7280_acc_enable] does
    not change how [da7280_set_override_val] saturates: the byte written to
    [TOP_CTL2] afterwards is decided by the [acc_en] and [dev_type] the
    driver recorded before, whatever [enable] was. *)
Theorem acc_enable_keeps_saturation
    (T : transport) (enable v : Z) (w : world) :
  0 <= v <= 255 ->
  exists ret r old x c,
    (da7280_acc_enable T enable ;;; da7280_set_override_val T v) w =
      (ret,
       {| haptic := haptic w;
          trace := trace w ++
            [BusRead DA7280_TOP_CFG1 r old; BusWrite DA7280_TOP_CFG1 x c;
             BusWrite DA7280_TOP_CTL2
               (if nonzero (acc_en (haptic w))
                   || (dev_type (haptic w) =? DA7280_LRA)
                then Z.min v 127 else v) ret] |}) /\
    Z.testbit x DA7280_ACCELERATION_EN_SHIFT = negb (enable =? 0).
Proof.
  intros Hv.
  assert (Ht : 0 <= tern enable < 2 ^ 1).
  { unfold tern. destruct (enable =? 0); cbn; lia. }
  assert (H : does (da7280_acc_enable T enable ;;; da7280_set_override_val T v)
                (haptic w) (trace w) (fun ret h' new =>
                  h' = haptic w /\
                  exists r old x c,
                    new = [BusRead DA7280_TOP_CFG1 r old;
                           BusWrite DA7280_TOP_CFG1 x c;
                           BusWrite DA7280_TOP_CTL2
                             (if nonzero (acc_en (haptic w))
                                 || (dev_type (haptic w) =? DA7280_LRA)
                              then Z.min v 127 else v) ret] /\
                    Z.testbit x DA7280_ACCELERATION_EN_SHIFT
                      = negb (enable =? 0))).
  { apply does_bind. eapply does_weaken.
    { apply (update_field_does T DA7280_TOP_CFG1 (tern enable) 2 1);
        cbn; lia. }
    cbv beta. intros r0 h1 new1 (-> & r & old & x & c & -> & _ & Hbit & _).
    eapply does_weaken; [apply set_override_val_does; exact Hv |].
    cbv beta. intros ret h2 new2 (-> & ->). split; [reflexivity |].
    exists r, old, x, c. split; [reflexivity |].
    assert (Hb : Z.testbit x 2 = Z.testbit (tern enable) 0).
    { rewrite <- Hbit. rewrite Z.land_spec, Z.shiftr_spec by lia.
      cbn. rewrite andb_true_r. reflexivity. }
    change DA7280_ACCELERATION_EN_SHIFT with 2. rewrite Hb.
    unfold tern. destruct (enable =? 0); reflexivity. }
  destruct (does_elim _ w _ H)
    as (ret & h' & new & Hrun & -> & r & old & x & c & -> & Hbit).
  exists ret, r, old, x, c. split; [exact Hrun | exact Hbit].
Qed.

(** An ERM bar without recorded acceleration: acceleration is switched on
    in the chip, and 200 is still written unsaturated. *)
Lemma acc_enable_keeps_saturation_witness :
  exists ret r old x c,
    (da7280_acc_enable (steady_bus 0) 1 ;;;
     da7280_set_override_val (steady_bus 0) 200)
      {| haptic := set_dev_type DA7280_ERM_BAR haptic0; trace := [] |} =
      (ret,
       {| haptic := set_dev_type DA7280_ERM_BAR haptic0;
          trace :=
            [BusRead DA7280_TOP_CFG1 r old; BusWrite DA7280_TOP_CFG1 x c;
             BusWrite DA7280_TOP_CTL2 200 ret] |}) /\
    Z.testbit x DA7280_ACCELERATION_EN_SHIFT = true.
Proof.
  exact (acc_enable_keeps_saturation (steady_bus 0) 1 200
           {| haptic := set_dev_type DA7280_ERM_BAR haptic0; trace := [] |}
           ltac:(lia)).
Defined.

(** ** Starting and stopping the drive *)

Lemma seq_start_set (a : Z) :
  Z.lor (Z.land a (Z.lnot DA7280_SEQ_START_MASK)) DA7280_SEQ_START_MASK =
  Z.lor a DA7280_SEQ_START_MASK.
Proof. apply lor_land_lnot. Qed.

Lemma haptic_enable_does (T : transport) (flag : bool) h tr :
  0 <= op_mode h < 8 ->
  (op_mode h = DA7280_PWM_MODE -> flag = true) ->
  does (da7280_haptic_enable T flag) h tr (fun ret h' new =>
    h' = h /\
    exists r old x c rest,
      new = BusRead DA7280_TOP_CTL1 r old
              :: BusWrite DA7280_TOP_CTL1 x c :: rest /\
      Z.land x DA7280_OPERATION_MODE_MASK = op_mode h /\
      (0 <= r ->
       Z.land x (Z.lnot DA7280_OPERATION_MODE_MASK) =
       Z.land old (Z.lnot DA7280_OPERATION_MODE_MASK)) /\
      (c < 0 -> rest = [] /\ ret = - EIO) /\
      (0 <= c ->
       if (op_mode h =? DA7280_PWM_MODE) || (op_mode h =? DA7280_RTWM_MODE)
       then
         exists r' old' x' c',
           rest = [BusRead DA7280_TOP_CTL1 r' old';
                   BusWrite DA7280_TOP_CTL1 x' c'] /\
           Z.testbit x' 4 = true /\
           (0 <= r' -> x' = Z.lor old' DA7280_SEQ_START_MASK) /\
           ret = (if c' <? 0 then - EIO else 0)
       else rest = [] /\ ret = 0)).
Proof.
  intros Hop Hpwm. unfold da7280_haptic_enable.
  step. step.
  apply does_bind.
  assert (Hpre : does (if op_mode h =? DA7280_PWM_MODE
                       then da7280_set_pwm flag else ret 0) h (tr ++ [])
                   (fun r h1 new1 => r = 0 /\ h1 = h /\ new1 = [])).
  { destruct (op_mode h =? DA7280_PWM_MODE) eqn:E.
    - apply Z.eqb_eq in E. rewrite (Hpwm E). unfold da7280_set_pwm.
      step. auto.
    - step. auto. }
  eapply does_weaken; [exact Hpre |]. cbv beta.
  intros r0 h1 new1 (-> & -> & ->). step.
  apply does_bind. eapply does_weaken.
  { apply (update_field_does T DA7280_TOP_CTL1 (op_mode h) 0 3);
      [lia | lia | lia |]. change (2 ^ 3) with 8. exact Hop. }
  cbv beta. intros r1 h1 new1 (-> & r & old & x & c & -> & -> & Hfld & Hkeep).
  rewrite Z.shiftr_0_r in Hfld.
  destruct (c <? 0) eqn:Ec.
  - step. step. cbn [app]. split; [reflexivity |].
    exists r, old, x, c, []. split; [reflexivity |].
    split; [exact Hfld |]. split; [exact Hkeep |].
    split; [auto | intros; lia].
  - step.
    destruct ((op_mode h =? DA7280_PWM_MODE) || (op_mode h =? DA7280_RTWM_MODE)).
    + step. step.
      * step. step. cbn [app]. split; [reflexivity |].
        do 5 eexists. split; [reflexivity |].
        split; [exact Hfld |]. split; [exact Hkeep |].
        split; [intros; lia |]. intros _.
        do 4 eexists. split; [reflexivity |].
        split; [rewrite seq_start_set, Z.lor_spec; apply orb_true_r |].
        split; [| replace (c0 <? 0) with true by lia; reflexivity].
        intros Hr. replace (r0 <? 0) with false by lia. apply seq_start_set.
      * step. step. cbn [app]. split; [reflexivity |].
        do 5 eexists. split; [reflexivity |].
        split; [exact Hfld |]. split; [exact Hkeep |].
        split; [intros; lia |]. intros _.
        do 4 eexists. split; [reflexivity |].
        split; [rewrite seq_start_set, Z.lor_spec; apply orb_true_r |].
        split; [| replace (c0 <? 0) with false by lia; reflexivity].
        intros Hr. replace (r0 <? 0) with false by lia. apply seq_start_set.
    + step. cbn [app]. split; [reflexivity |].
      exists r, old, x, c, []. split; [reflexivity |].
      split; [exact Hfld |]. split; [exact Hkeep |].
      split; [intros; lia | auto].
Qed.



Example haptic_enable_rtwm :
  da7280_haptic_enable (steady_bus 0x08) false
    {| haptic := set_op_mode_field DA7280_RTWM_MODE haptic0; trace := [] |} =
  (0, {| haptic := set_op_mode_field DA7280_RTWM_MODE haptic0;
         trace := [BusRead DA7280_TOP_CTL1 0 0x08;
                   BusWrite DA7280_TOP_CTL1 0x0B 0;
                   BusRead DA7280_TOP_CTL1 0 0x08;
                   BusWrite DA7280_TOP_CTL1 0x18 0] |}).
Proof. reflexivity. Qed.

(** X7: in a build without [DA7280_HAPTIC_PWM], enabling the drive with PWM
    as the recorded mode fails before any bus call, and the value returned
    is 161, the [u8] that [da7280_set_pwm] makes of [-EOPNOTSUPP], not a
    negative error code. *)
Theorem haptic_enable_pwm_unsupported (T : transport) (w : world) :
  op_mode (haptic w) = DA7280_PWM_MODE ->
  da7280_haptic_enable T false w = (161, w).
Proof.
  intros Hop. unfold da7280_haptic_enable, bind, get_haptic, da7280_set_pwm.
  rewrite Hop. reflexivity.
Qed.

Lemma haptic_enable_pwm_unsupported_witness :
  da7280_haptic_enable (steady_bus 0) false
    {| haptic := set_op_mode_field DA7280_PWM_MODE haptic0; trace := [] |} =
  (161, {| haptic := set_op_mode_field DA7280_PWM_MODE haptic0; trace := [] |}).
Proof.
  exact (haptic_enable_pwm_unsupported (steady_bus 0)
           {| haptic := set_op_mode_field DA7280_PWM_MODE haptic0;
              trace := [] |} eq_refl).
Defined.

Lemma haptic_disable_does (T : transport) h tr :
  does (da7280_haptic_disable T) h tr (fun ret h' new =>
    h' = h /\
    exists r old x c,
      new = [BusRead DA7280_TOP_CTL1 r old; BusWrite DA7280_TOP_CTL1 x c] /\
      ret = (if c <? 0 then - EIO else 0) /\
      Z.land x DA7280_OPERATION_MODE_MASK = 0 /\
      (0 <= r -> x = Z.land old (Z.lnot DA7280_OPERATION_MODE_MASK))).
Proof.
  unfold da7280_haptic_disable, da7280_pwm_disable.
  step. step.
  - steps. split; [reflexivity |]. do 4 eexists.
    split; [reflexivity |]. replace (c <? 0) with true by lia.
    split; [reflexivity |]. split; [apply opmode_cleared |].
    intros Hr. rewrite Z.lor_0_r. replace (r <? 0) with false by lia.
    reflexivity.
  - step. step. step. step.
    destruct (op_mode h =? DA7280_PWM_MODE); steps.
    all: split; [reflexivity |]; do 4 eexists;
      (split; [reflexivity |]); replace (c <? 0) with false by lia;
      (split; [reflexivity |]); (split; [apply opmode_cleared |]);
      intros Hr; rewrite Z.lor_0_r; replace (r <? 0) with false by lia;
      reflexivity.
Qed.


(** X9: enabling and then disabling touches no register but [TOP_CTL1], for
    every recorded mode and every bus behaviour, and when the enable went as
    far as the bus the log ends with the write that zeroes the
    operation-mode field. *)
Theorem enable_then_disable_stays_on_top_ctl1
    (T : transport) (flag : bool) (w : world) :
  exists ret new r old x c,
    (da7280_haptic_enable T flag ;;; da7280_haptic_disable T) w =
      (ret, {| haptic := haptic w;
               trace := trace w ++ new ++ [BusRead DA7280_TOP_CTL1 r old;
                                           BusWrite DA7280_TOP_CTL1 x c] |}) /\
    Forall (on_register DA7280_TOP_CTL1) new /\
    Z.land x DA7280_OPERATION_MODE_MASK = 0.
Proof.
  assert (Hen : does (da7280_haptic_enable T flag) (haptic w) (trace w)
                  (fun _ h' new =>
                     h' = haptic w /\ Forall (on_register DA7280_TOP_CTL1) new)).
  { unfold da7280_haptic_enable, da7280_set_pwm. step. step. step.
    destruct (op_mode (haptic w) =? DA7280_PWM_MODE); [destruct flag |].
    all: steps; (split; [reflexivity |]); repeat constructor. }
  assert (H : does (da7280_haptic_enable T flag ;;; da7280_haptic_disable T)
                (haptic w) (trace w) (fun ret h' new0 =>
                  h' = haptic w /\
                  exists new r old x c,
                    new0 = new ++ [BusRead DA7280_TOP_CTL1 r old;
                                   BusWrite DA7280_TOP_CTL1 x c] /\
                    Forall (on_register DA7280_TOP_CTL1) new /\
                    Z.land x DA7280_OPERATION_MODE_MASK = 0)).
  { apply does_bind. eapply does_weaken; [exact Hen |]. cbv beta.
    intros r0 h1 new1 (-> & Hall).
    eapply does_weaken; [apply haptic_disable_does |]. cbv beta.
    intros ret h2 new2 (-> & r & old & x & c & -> & _ & Hz & _).
    split; [reflexivity |]. exists new1, r, old, x, c. auto. }
  destruct (does_elim _ w _ H)
    as (ret & h' & new0 & Hrun & -> & new & r & old & x & c & -> & Hall & Hz).
  exists ret, new, r, old, x, c. auto.
Qed.

(** ** The set-up as a whole *)

Ltac within :=
  repeat first [apply Forall_nil | apply Forall_cons];
  cbn [writes_within]; try exact I; try assumption;
  try (vm_compute; auto 20).

Lemma switch_shape_does (T : transport) (U : user_data) h tr :
  does (set_user_data_switch T U) h tr (fun r h' new =>
    Forall (writes_within switch_registers) new /\
    (r = 0 ->
     h' = if dev_type h =? DA7280_ERM_COIN then clear_coin_flags h else h) /\
    (dev_type h = DA7280_ERM_COIN ->
     exists r1 old1 x1 c1 rest,
       new = BusRead DA7280_TOP_INT_CFG1 r1 old1
               :: BusWrite DA7280_TOP_INT_CFG1 x1 c1 :: rest /\
       Z.land x1 DA7280_BEMF_FAULT_LIM_MASK = 0 /\
       (c1 < 0 -> rest = [] /\ r = - EIO) /\
       (0 <= c1 ->
        exists r2 old2 x2 c2,
          rest = [BusRead DA7280_TOP_CFG4 r2 old2;
                  BusWrite DA7280_TOP_CFG4 x2 c2] /\
          Z.testbit x2 6 = true /\ Z.testbit x2 7 = true /\
          r = (if c2 <? 0 then - EIO else 0)))).
Proof.
  unfold set_user_data_switch, da7280_set_resonant_freq.
  step. step.
  destruct (dev_type h =? DA7280_LRA) eqn:Ed.
  - apply Z.eqb_eq in Ed.
    replace (dev_type h =? DA7280_ERM_COIN) with false
      by (rewrite Ed; reflexivity).
    destruct ((_ >? _) || (_ <? _)); steps.
    all: split; [within |]; split; [try discriminate; try reflexivity;
                                    intros; contradiction |];
      intros Hc; rewrite Ed in Hc; discriminate Hc.
  - destruct (dev_type h =? DA7280_ERM_COIN) eqn:Ec.
    + steps.
      all: split; [within |]; split;
        [try reflexivity; intros Hz; discriminate Hz |]; intros _;
        do 5 eexists; (split; [reflexivity |]);
        (split; [rewrite Z.lor_0_r, <- Z.land_assoc; apply Z.land_0_r |]);
        split; [try (intros; split; reflexivity); intros; lia |];
        try (intros; lia); intros _; do 4 eexists;
        (split; [reflexivity |]);
        (split; [rewrite Z.lor_spec; apply orb_true_r |]);
        (split; [rewrite Z.lor_spec; apply orb_true_r |]);
        first [ replace (c0 <? 0) with true by lia; reflexivity
              | replace (c0 <? 0) with false by lia; reflexivity ].
    + apply Z.eqb_neq in Ec. steps.
      split; [within |]. split; [reflexivity | intros; contradiction].
Qed.

Lemma set_imax_within (T : transport) (U : user_data) (val : Z) h tr :
  does (da7280_set_imax T U val) h tr (fun ret h' new =>
    h' = h /\ Forall (writes_within tail_registers) new).
Proof.
  unfold da7280_set_imax.
  destruct (val >? DA7280_IMAX_LIMIT) eqn:Ev.
  - steps. split; [reflexivity | within].
  - cbv zeta. step. step.
    + steps. split; [reflexivity | within].
    + step.
      destruct (nonzero (da7280_impd_check (USER_IMPD_mOhm U))) eqn:Ei.
      * steps. split; [reflexivity | within].
      * steps. all: split; [reflexivity | within].
Qed.

Lemma set_volt_rating_within (T : transport) (reg val : Z) h tr :
  In reg tail_registers ->
  does (da7280_set_volt_rating T reg val) h tr (fun ret h' new =>
    h' = h /\ Forall (writes_within tail_registers) new).
Proof.
  intros Hreg. unfold da7280_set_volt_rating. cbv zeta. steps.
  split; [reflexivity | within].
Qed.

Lemma pdata_setup_within (T : transport) (U : user_data) h tr :
  does (da7280_run_script T (da7280_pdata_setup U)) h tr (fun ret h' new =>
    h' = h /\ Forall (writes_within tail_registers) new /\
    (ret = 0 \/ ret = - EIO)).
Proof.
  unfold da7280_pdata_setup. cbn [da7280_run_script]. steps.
  all: split; [reflexivity |]; split; [within | auto].
Qed.

(** The combined [TOP_CFG1] value of the source is the code of the flags. *)
Lemma cfg1_val_code (h : da7280_haptic) :
  Z.lor (Z.lor (Z.lor (Z.lor (Z.lor
    (Z.shiftl (tern (dev_type h)) DA7280_ACTUATOR_TYPE_SHIFT)
    (Z.shiftl (tern (bemf_sense_en h)) DA7280_BEMF_SENSE_EN_SHIFT))
    (Z.shiftl (tern (freq_track_en h)) DA7280_FREQ_TRACK_EN_SHIFT))
    (Z.shiftl (tern (acc_en h)) DA7280_ACCELERATION_EN_SHIFT))
    (Z.shiftl (tern (rapid_stop_en h)) DA7280_RAPID_STOP_EN_SHIFT))
    (Z.shiftl (tern (amp_pid_en h)) DA7280_AMP_PID_EN_SHIFT)
  = top_cfg1_code h.
Proof.
  unfold top_cfg1_code, tern.
  destruct (dev_type h =? 0), (bemf_sense_en h =? 0), (freq_track_en h =? 0),
    (acc_en h =? 0), (rapid_stop_en h =? 0), (amp_pid_en h =? 0); reflexivity.
Qed.

Lemma top_cfg1_code_range (h : da7280_haptic) : 0 <= top_cfg1_code h < 2 ^ 6.
Proof.
  unfold top_cfg1_code, tern. change (2 ^ 6) with 64.
  destruct (dev_type h =? 0), (bemf_sense_en h =? 0), (freq_track_en h =? 0),
    (acc_en h =? 0), (rapid_stop_en h =? 0), (amp_pid_en h =? 0); lia.
Qed.

(** The flags the set-up works with after the switch and the mode test. *)
Lemma flags_of_steps (U : user_data) (h : da7280_haptic) :
  let h0 :=
    {| suspend_state := suspend_state h; magnitude := magnitude h;
       dev_type := u8 (USER_HAPTIC_DEV U);
       op_mode := u8 (USER_OP_MODE U);
       bemf_sense_en := u8 (USER_BEMF_SENS_EN U);
       freq_track_en := u8 (USER_FREQ_TRACK_EN U);
       acc_en := u8 (USER_ACC_EN U);
       rapid_stop_en := u8 (USER_RAPID_STOP_EN U);
       amp_pid_en := u8 (USER_AMP_PID_EN U) |} in
  let h1 := if dev_type h0 =? DA7280_ERM_COIN
            then clear_coin_flags h0 else h0 in
  (if op_mode h1 >=? DA7280_RTWM_MODE then set_bemf_sense_en 0 h1 else h1)
  = flags_of U h.
Proof.
  cbv zeta. unfold flags_of. cbn [dev_type].
  destruct (u8 (USER_HAPTIC_DEV U) =? DA7280_ERM_COIN);
    cbn [op_mode clear_coin_flags];
    destruct (u8 (USER_OP_MODE U) >=? DA7280_RTWM_MODE); reflexivity.
Qed.

Lemma set_user_data_shape_does (T : transport) (U : user_data) h tr :
  does (da7280_set_user_data T U) h tr (fun ret h' new =>
    exists sw rest,
      new = sw ++ rest /\
      Forall (writes_within switch_registers) sw /\
      (rest = [] \/
       exists r old x c tail,
         rest = BusRead DA7280_TOP_CFG1 r old
                  :: BusWrite DA7280_TOP_CFG1 x c :: tail /\
         Z.land x 0x3F = top_cfg1_code (flags_of U h) /\
         (0 <= r -> Z.land x (Z.lnot 0x3F) = Z.land old (Z.lnot 0x3F)) /\
         Forall (writes_within tail_registers) tail) /\
      (ret = 0 -> rest <> [] /\ h' = flags_of U h) /\
      (u8 (USER_HAPTIC_DEV U) = DA7280_ERM_COIN ->
       exists r1 old1 x1 c1 rest1,
         sw = BusRead DA7280_TOP_INT_CFG1 r1 old1
                :: BusWrite DA7280_TOP_INT_CFG1 x1 c1 :: rest1 /\
         Z.land x1 DA7280_BEMF_FAULT_LIM_MASK = 0 /\
         (c1 < 0 -> rest1 = []) /\
         (0 <= c1 ->
          exists r2 old2 x2 c2,
            rest1 = [BusRead DA7280_TOP_CFG4 r2 old2;
                     BusWrite DA7280_TOP_CFG4 x2 c2] /\
            Z.testbit x2 6 = true /\ Z.testbit x2 7 = true))).
Proof.
  unfold da7280_set_user_data.
  step. step. step. step.
  pose proof (flags_of_steps U h) as Hflags. cbv zeta in Hflags.
  set (h0 := {| suspend_state := suspend_state h; magnitude := magnitude h;
                dev_type := u8 (USER_HAPTIC_DEV U);
                op_mode := u8 (USER_OP_MODE U);
                bemf_sense_en := u8 (USER_BEMF_SENS_EN U);
                freq_track_en := u8 (USER_FREQ_TRACK_EN U);
                acc_en := u8 (USER_ACC_EN U);
                rapid_stop_en := u8 (USER_RAPID_STOP_EN U);
                amp_pid_en := u8 (USER_AMP_PID_EN U) |}) in *.
  call switch_shape_does.
  intros r h1 sw (Hsw & Hh1 & Hcoin).
  assert (Hcoin' :
    u8 (USER_HAPTIC_DEV U) = DA7280_ERM_COIN ->
    exists r1 old1 x1 c1 rest1,
      sw = BusRead DA7280_TOP_INT_CFG1 r1 old1
             :: BusWrite DA7280_TOP_INT_CFG1 x1 c1 :: rest1 /\
      Z.land x1 DA7280_BEMF_FAULT_LIM_MASK = 0 /\
      (c1 < 0 -> rest1 = []) /\
      (0 <= c1 ->
       exists r2 old2 x2 c2,
         rest1 = [BusRead DA7280_TOP_CFG4 r2 old2;
                  BusWrite DA7280_TOP_CFG4 x2 c2] /\
         Z.testbit x2 6 = true /\ Z.testbit x2 7 = true)).
  { intros Hd. destruct (Hcoin Hd)
      as (r1 & old1 & x1 & c1 & rest1 & -> & Hx1 & Hneg & Hpos).
    exists r1, old1, x1, c1, rest1. repeat split; try assumption.
    - intros Hc. apply (Hneg Hc).
    - intros Hc. destruct (Hpos Hc) as (r2 & old2 & x2 & c2 & -> & H6 & H7 & _).
      exists r2, old2, x2, c2. auto. }
  clear Hcoin.
  destruct (nonzero r) eqn:Er.
  { apply nonzero_true in Er. step. cbn [app].
    exists sw, []. split; [reflexivity |]. split; [exact Hsw |].
    split; [left; reflexivity |]. split; [intros; contradiction | exact Hcoin']. }
  apply nonzero_false in Er. specialize (Hh1 Er). subst h1 r.
  step. step. apply does_bind.
  set (h1 := if dev_type h0 =? DA7280_ERM_COIN then clear_coin_flags h0 else h0)
    in *.
  assert (Hmode : does (if op_mode h1 >=? DA7280_RTWM_MODE
                        then put_haptic (set_bemf_sense_en 0 h1) else ret tt)
                    h1 ((((tr ++ []) ++ []) ++ sw) ++ [])
                    (fun _ h2 new2 => h2 = flags_of U h /\ new2 = [])).
  { rewrite <- Hflags. destruct (op_mode h1 >=? DA7280_RTWM_MODE); step; auto. }
  eapply does_weaken; [exact Hmode |]. cbv beta.
  intros _ h2 new2 (-> & ->). clear Hmode.
  step. step. cbv zeta.
  rewrite cfg1_val_code.
  apply does_bind. eapply does_weaken.
  { apply (update_field_does T DA7280_TOP_CFG1 (top_cfg1_code (flags_of U h))
             0 6); try lia. apply top_cfg1_code_range. }
  cbv beta. intros r1 h3 new3 (-> & r & old & x & c & -> & -> & Hfld & Hkeep).
  rewrite Z.shiftr_0_r in Hfld.
  destruct (c <? 0) eqn:Ec.
  { step. step. cbn [app].
    exists sw, [BusRead DA7280_TOP_CFG1 r old; BusWrite DA7280_TOP_CFG1 x c].
    split; [reflexivity |]. split; [exact Hsw |]. split.
    - right. exists r, old, x, c, []. repeat split; auto.
    - split; [intros Hz; discriminate Hz | exact Hcoin']. }
  step.
  call set_imax_within. intros r2 h4 new4 (-> & Hw4).
  destruct (nonzero r2) eqn:Er2.
  { apply nonzero_true in Er2. step. cbn [app]. rewrite ?app_nil_r.
    exists sw, (BusRead DA7280_TOP_CFG1 r old
                  :: BusWrite DA7280_TOP_CFG1 x c :: new4).
    split; [reflexivity |]. split; [exact Hsw |]. split.
    - right. exists r, old, x, c, new4. repeat split; auto.
    - split; [intros; contradiction | exact Hcoin']. }
  apply does_bind. eapply does_weaken.
  { apply set_volt_rating_within. vm_compute. auto 20. }
  cbv beta. intros r3 h5 new5 (-> & Hw5).
  destruct (nonzero r3) eqn:Er3.
  { apply nonzero_true in Er3. step. cbn [app]. rewrite ?app_nil_r.
    exists sw, (BusRead DA7280_TOP_CFG1 r old
                  :: BusWrite DA7280_TOP_CFG1 x c :: new4 ++ new5).
    split; [reflexivity |]. split; [exact Hsw |]. split.
    - right. exists r, old, x, c, (new4 ++ new5). repeat split; auto.
      apply Forall_app; auto.
    - split; [intros; contradiction | exact Hcoin']. }
  apply does_bind. eapply does_weaken.
  { apply set_volt_rating_within. vm_compute. auto 20. }
  cbv beta. intros r4 h6 new6 (-> & Hw6).
  destruct (nonzero r4) eqn:Er4.
  { apply nonzero_true in Er4. step. cbn [app]. rewrite ?app_nil_r.
    exists sw, (BusRead DA7280_TOP_CFG1 r old
                  :: BusWrite DA7280_TOP_CFG1 x c :: new4 ++ new5 ++ new6).
    split; [reflexivity |]. split; [exact Hsw |]. split.
    - right. exists r, old, x, c, (new4 ++ new5 ++ new6).
      repeat split; auto. repeat (apply Forall_app; split); auto.
    - split; [intros; contradiction | exact Hcoin']. }
  call pdata_setup_within. intros r5 h7 new7 (-> & Hw7 & _).
  assert (Htail : Forall (writes_within tail_registers)
                    (new4 ++ new5 ++ new6 ++ new7)).
  { repeat (apply Forall_app; split); auto. }
  destruct (nonzero r5) eqn:Er5; step; cbn [app]; rewrite ?app_nil_r.
  - exists sw, (BusRead DA7280_TOP_CFG1 r old
                  :: BusWrite DA7280_TOP_CFG1 x c
                  :: new4 ++ new5 ++ new6 ++ new7).
    split; [reflexivity |]. split; [exact Hsw |]. split.
    + right. exists r, old, x, c, (new4 ++ new5 ++ new6 ++ new7).
      repeat split; auto.
    + split; [intros Hz; discriminate Hz | exact Hcoin'].
  - exists sw, (BusRead DA7280_TOP_CFG1 r old
                  :: BusWrite DA7280_TOP_CFG1 x c
                  :: new4 ++ new5 ++ new6 ++ new7).
    split; [reflexivity |]. split; [exact Hsw |]. split.
    + right. exists r, old, x, c, (new4 ++ new5 ++ new6 ++ new7).
      repeat split; auto.
    + split; [| exact Hcoin']. intros _. split; [discriminate | reflexivity].
Qed.

Lemma within_not_in (regs : list Z) (l : list bus_event) (reg x c : Z) :
  Forall (writes_within regs) l -> In (BusWrite reg x c) l -> In reg regs.
Proof.
  intros Hall Hin. rewrite Forall_forall in Hall. exact (Hall _ Hin).
Qed.

Lemma within_more (regs regs' : list Z) (l : list bus_event) :
  incl regs regs' ->
  Forall (writes_within regs) l -> Forall (writes_within regs') l.
Proof.
  intros Hincl. apply Forall_impl. intros [r ? ? | r x c | ms]; cbn; auto.
Qed.

(** X10: whatever the platform data and the bus do, every byte that
    [da7280_set_user_data] writes to [TOP_CFG1] carries in its six low bits
    the code of [flags_of]: the configured actuator type and frequency
    tracking, back-EMF sensing unless the mode is 3 or more, and
    acceleration, rapid stop and amplitude PID unless the actuator is an ERM
    coin.  A call that returns 0 has made that write and records exactly
    these flags. *)
Theorem set_user_data_top_cfg1_code
    (T : transport) (U : user_data) (w : world) :
  exists ret h' new,
    da7280_set_user_data T U w =
      (ret, {| haptic := h'; trace := trace w ++ new |}) /\
    (forall x c, In (BusWrite DA7280_TOP_CFG1 x c) new ->
       Z.land x 0x3F = top_cfg1_code (flags_of U (haptic w))) /\
    (ret = 0 ->
     h' = flags_of U (haptic w) /\
     exists x c, In (BusWrite DA7280_TOP_CFG1 x c) new).
Proof.
  destruct (does_elim _ w _
              (set_user_data_shape_does T U (haptic w) (trace w)))
    as (ret & h' & new & Hrun & sw & rest & -> & Hsw & Hrest & Hok & _).
  exists ret, h', (sw ++ rest). split; [exact Hrun |]. split.
  - intros x c Hin. apply in_app_or in Hin. destruct Hin as [Hin | Hin].
    + apply (within_not_in _ _ _ _ _ Hsw) in Hin.
      vm_compute in Hin. exfalso.
      repeat (destruct Hin as [Hin | Hin]; [discriminate Hin |]). exact Hin.
    + destruct Hrest as [-> | (r & old & x0 & c0 & tail & -> & Hx & _ & Htail)];
        [contradiction |].
      destruct Hin as [Hin | [Hin | Hin]]; [discriminate Hin | |].
      * inversion Hin; subst. exact Hx.
      * apply (within_not_in _ _ _ _ _ Htail) in Hin.
        vm_compute in Hin. exfalso.
        repeat (destruct Hin as [Hin | Hin]; [discriminate Hin |]). exact Hin.
  - intros Hz. destruct (Hok Hz) as (Hne & ->). split; [reflexivity |].
    destruct Hrest as [-> | (r & old & x0 & c0 & tail & -> & _)];
      [contradiction |].
    exists x0, c0. apply in_or_app. right. right. left. reflexivity.
Qed.

(** An ERM coin in mode 4 with every flag requested: only the type bit and
    frequency tracking reach [TOP_CFG1]. *)
Example top_cfg1_code_coin_etwm :
  top_cfg1_code
    (flags_of
       {| USER_HAPTIC_DEV := DA7280_ERM_COIN; USER_OP_MODE := DA7280_ETWM_MODE;
          USER_BEMF_SENS_EN := 1; USER_FREQ_TRACK_EN := 1; USER_ACC_EN := 1;
          USER_RAPID_STOP_EN := 1; USER_AMP_PID_EN := 1;
          USER_NOM_mVolt := 1200; USER_ABS_MAX_mV := 1400;
          USER_RESONANT_FREQ_Hz := 180; USER_IMAX_mA := 137;
          USER_IMPD_mOhm := 10500; USER_OVERIDE_VAL := 0x59;
          USE_SEQ_ID := 7; USE_SEQ_LOOP := 3;
          USER_GPI_0_SEQ_ID := 7; USER_GPI_1_SEQ_ID := 7;
          USER_GPI_0_MOD := 0; USER_GPI_1_MOD := 0;
          USER_GPI_0_POL := 2; USER_GPI_1_POL := 2 |} haptic0) = 0x28.
Proof. reflexivity. Qed.

(** X11: [da7280_set_user_data] writes no register outside
    [setup_registers]; in particular it never writes [TOP_CTL1], so it
    neither starts the drive nor leaves standby, and it never writes the
    pattern memory. *)
Theorem set_user_data_writes_setup_registers_only
    (T : transport) (U : user_data) (w : world) :
  exists ret h' new,
    da7280_set_user_data T U w =
      (ret, {| haptic := h'; trace := trace w ++ new |}) /\
    (forall reg x c, In (BusWrite reg x c) new -> In reg setup_registers) /\
    (forall reg x c, In (BusWrite reg x c) new ->
       reg <> DA7280_TOP_CTL1 /\
       ~ DA7280_SNP_MEM_0 <= reg <= DA7280_SNP_MEM_99).
Proof.
  destruct (does_elim _ w _
              (set_user_data_shape_does T U (haptic w) (trace w)))
    as (ret & h' & new & Hrun & sw & rest & -> & Hsw & Hrest & _ & _).
  assert (Hall : forall reg x c,
            In (BusWrite reg x c) (sw ++ rest) -> In reg setup_registers).
  { intros reg x c Hin. unfold setup_registers.
    apply in_app_or in Hin. destruct Hin as [Hin | Hin].
    - apply in_or_app. left. exact (within_not_in _ _ _ _ _ Hsw Hin).
    - apply in_or_app. right.
      destruct Hrest as [-> | (r & old & x0 & c0 & tail & -> & _ & _ & Htail)];
        [contradiction |].
      destruct Hin as [Hin | [Hin | Hin]]; [discriminate Hin | |].
      + inversion Hin; subst. left. reflexivity.
      + right. exact (within_not_in _ _ _ _ _ Htail Hin). }
  exists ret, h', (sw ++ rest). split; [exact Hrun |]. split; [exact Hall |].
  intros reg x c Hin. specialize (Hall reg x c Hin).
  vm_compute in Hall.
  repeat (destruct Hall as [Hall | Hall];
          [subst reg; split; [discriminate | vm_compute; intros [H1 H2];
                                             first [apply H1 | apply H2];
                                             reflexivity] |]).
  contradiction.
Qed.



(** The whole set-up of an ERM coin on a chip whose registers read 0xFF. *)
Example set_user_data_erm_coin :
  da7280_set_user_data (steady_bus 0xFF)
    (with_dev DA7280_ERM_COIN header_user_data) world0 =
  (0, {| haptic :=
           {| suspend_state := 0; magnitude := 0; dev_type := 2; op_mode := 1;
              bemf_sense_en := 1; freq_track_en := 1; acc_en := 0;
              rapid_stop_en := 0; amp_pid_en := 0 |};
         trace := [BusRead DA7280_TOP_INT_CFG1 0 0xFF;
                   BusWrite DA7280_TOP_INT_CFG1 0xFC 0;
                   BusRead DA7280_TOP_CFG4 0 0xFF;
                   BusWrite DA7280_TOP_CFG4 0xFF 0;
                   BusRead DA7280_TOP_CFG1 0 0xFF;
                   BusWrite DA7280_TOP_CFG1 0xF8 0;
                   BusRead DA7280_ACTUATOR3 0 0xFF;
                   BusWrite DA7280_ACTUATOR3 0xF0 0;
                   BusWrite DA7280_CALIB_V2I_L 130 0;
                   BusWrite DA7280_CALIB_V2I_H 0 0;
                   BusWrite DA7280_ACTUATOR1 52 0;
                   BusWrite DA7280_ACTUATOR2 60 0;
                   BusWrite DA7280_IRQ_EVENT1 0xFF 0;
                   BusWrite DA7280_TOP_CTL2 0x59 0;
                   BusWrite DA7280_SEQ_CTL2 0x37 0;
                   BusWrite DA7280_GPI_0_CTL 0x3A 0;
                   BusWrite DA7280_GPI_1_CTL 0x3A 0;
                   BusWrite DA7280_GPI_2_CTL 0x3A 0] |}).
Proof. reflexivity. Qed.

(** ** Initialisation *)

Lemma init_does (T : transport) (U : user_data) h tr :
  does (da7280_init T U) h tr (fun ret h' new =>
    (ret = 0 \/ ret = - EIO) /\
    (ret = 0 ->
     h' = set_suspend_state 0 (flags_of U h) /\
     exists pre r old x c,
       new = pre ++ [BusRead DA7280_TOP_CTL1 r old;
                     BusWrite DA7280_TOP_CTL1 x c] /\
       Z.testbit x 3 = true /\
       (0 <= r -> x = Z.lor old DA7280_STANDBY_EN_MASK))).
Proof.
  unfold da7280_init.
  call set_user_data_shape_does.
  intros r h1 new1 (sw & rest & -> & _ & _ & Hok & _).
  destruct (nonzero r) eqn:Er.
  { step. cbn [app]. split; [right; reflexivity |].
    intros Hz; discriminate Hz. }
  apply nonzero_false in Er. destruct (Hok Er) as (_ & ->). subst r.
  step. step. step. step.
  apply does_bind. eapply does_weaken; [apply resume_does |]. cbv beta.
  cbn [suspend_state set_suspend_state].
  change (1 =? 0) with false. cbv iota.
  intros r h2 new2 (r0 & old & x & c & -> & Hbit & Hx & Hret).
  destruct (c <? 0) eqn:Ec; destruct Hret as (-> & ->).
  - step. step. split; [right; reflexivity |]. intros Hz; discriminate Hz.
  - step. step. split; [left; reflexivity |]. intros _.
    split; [reflexivity |].
    exists (sw ++ rest), r0, old, x, c. cbn [app]. rewrite ?app_nil_r.
    rewrite <- app_assoc. auto.
Qed.

Lemma init_bad_freq_does (T : transport) (U : user_data) h tr :
  u8 (USER_HAPTIC_DEV U) = DA7280_LRA ->
  ~ 50 <= u16 (USER_RESONANT_FREQ_Hz U) <= 300 ->
  does (da7280_init T U) h tr (fun ret h' new => ret = - EIO /\ new = []).
Proof.
  intros Hdev Hfreq. unfold da7280_init.
  apply does_bind. eapply does_weaken;
    [apply set_user_data_bad_freq_does; assumption |].
  cbv beta. intros r h1 new1 (-> & ->). steps. auto.
Qed.

(** X13: [da7280_init] answers 0 or [-EIO] and nothing else: every failure
    of the set-up, a refused frequency included, and every failure of the
    resume come out as [-EIO].  When it answers 0 the driver records the
    flags of the platform data and the resumed state, and the last two bus
    calls are the read-modify-write of [TOP_CTL1] that sets STANDBY_EN.  A
    frequency outside [50, 300] for an LRA gives [-EIO] before any bus
    call. *)
Theorem init_collapses_errors (T : transport) (U : user_data) (w : world) :
  exists ret h' new,
    da7280_init T U w = (ret, {| haptic := h'; trace := trace w ++ new |}) /\
    (ret = 0 \/ ret = - EIO) /\
    (ret = 0 ->
     h' = set_suspend_state 0 (flags_of U (haptic w)) /\
     exists pre r old x c,
       new = pre ++ [BusRead DA7280_TOP_CTL1 r old;
                     BusWrite DA7280_TOP_CTL1 x c] /\
       Z.testbit x 3 = true /\
       (0 <= r -> x = Z.lor old DA7280_STANDBY_EN_MASK)) /\
    (u8 (USER_HAPTIC_DEV U) = DA7280_LRA ->
     ~ 50 <= u16 (USER_RESONANT_FREQ_Hz U) <= 300 ->
     ret = - EIO /\ new = []).
Proof.
  destruct (does_elim _ w _ (init_does T U (haptic w) (trace w)))
    as (ret & h' & new & Hrun & Hcode & Hok).
  exists ret, h', new. split; [exact Hrun |]. split; [exact Hcode |].
  split; [exact Hok |].
  intros Hdev Hfreq.
  destruct (does_elim _ w _
              (init_bad_freq_does T U (haptic w) (trace w) Hdev Hfreq))
    as (ret2 & h2 & new2 & Hrun2 & -> & ->).
  rewrite Hrun in Hrun2. inversion Hrun2 as [[Hr Hh Ht]].
  apply app_inv_head in Ht. auto.
Qed.

Example init_header_data :
  let run := da7280_init (steady_bus 0) header_user_data world0 in
  fst run = 0 /\ suspend_state (haptic (snd run)) = 0 /\
  last (trace (snd run)) (Sleep 0) = BusWrite DA7280_TOP_CTL1 0x08 0.
Proof. vm_compute. auto. Qed.

(** ** Reading the pattern memory back *)





(** A bus on which only the first read (of the base address) succeeds: the
    call still answers 0, with 0xFE for every byte. *)
Example mem_read_on_failing_bus :
  da7280_haptic_mem_read
    {| i2c_register_read :=
         fun log reg => match log with [] => (0, 0x84) | _ => (-5, 0) end;
       i2c_register_write := fun _ _ _ => 0 |} 2 world0 =
  ((0, [0xFE; 0xFE]),
   {| haptic := haptic0;
      trace := [BusRead DA7280_MEM_CTL1 0 0x84;
                BusRead 0x84 (-5) 0; BusRead 0x85 (-5) 0] |}).
Proof. reflexivity. Qed.

(** ** Scripts *)




(** ** Bulk write *)



(** ** The resonant period and the current limit, byte by byte *)








(** The header's 137 mA into 10.5 Ohm: code 16, factor 130. *)
Example set_imax_header_values :
  da7280_set_imax (steady_bus 0) header_user_data
    (USER_IMAX_mA header_user_data) world0 =
  (0, {| haptic := haptic0;
         trace := [BusRead DA7280_ACTUATOR3 0 0;
                   BusWrite DA7280_ACTUATOR3 16 0;
                   BusWrite DA7280_CALIB_V2I_L 130 0;
                   BusWrite DA7280_CALIB_V2I_H 0 0] |}).
Proof. reflexivity. Qed.

(** ** Upload and read-back on a chip that stores its registers *)

Lemma reg_value_write_snoc (init : Z -> Z) (l : list bus_event) (r v c reg : Z) :
  reg_value init (l ++ [BusWrite r v c]) reg =
  if reg =? r then v else reg_value init l reg.
Proof.
  revert init. induction l as [| e l IH]; intros init.
  - reflexivity.
  - destruct e; cbn [app reg_value]; apply IH.
Qed.

Lemma reg_value_read_snoc (init : Z -> Z) (l : list bus_event) (r c v reg : Z) :
  reg_value init (l ++ [BusRead r c v]) reg = reg_value init l reg.
Proof.
  revert init. induction l as [| e l IH]; intros init.
  - reflexivity.
  - destruct e; cbn [app reg_value]; apply IH.
Qed.

Ltac range_test :=
  repeat match goal with
         | |- context [?a <=? ?b] => destruct (Z.leb_spec a b)
         | |- context [?a <? ?b] => destruct (Z.ltb_spec a b)
         end;
  cbn [andb]; try reflexivity; lia.

(** After a run of [bulk_log], the registers written hold the bytes and the
    others are as before. *)
Lemma reg_value_bulk (init : Z -> Z) (reg : Z) (val : nat -> Z) (n : nat) :
  forall (i : nat) (tr : list bus_event) (x : Z),
    reg_value init (tr ++ bulk_log reg val i n) x =
    if (reg + Z.of_nat i <=? x) && (x <? reg + Z.of_nat (i + n))
    then val (Z.to_nat (x - reg))
    else reg_value init tr x.
Proof.
  induction n as [| n IH]; intros i tr x.
  - unfold bulk_log. cbn [seq map]. rewrite app_nil_r.
    replace ((reg + Z.of_nat i <=? x) && (x <? reg + Z.of_nat (i + 0)))
      with false by range_test.
    reflexivity.
  - rewrite bulk_log_snoc.
    change (tr ++ BusWrite (reg + Z.of_nat i) (val i) 0
               :: bulk_log reg val (S i) n)
      with (tr ++ [BusWrite (reg + Z.of_nat i) (val i) 0]
               ++ bulk_log reg val (S i) n).
    rewrite app_assoc, IH, reg_value_write_snoc.
    destruct (x =? reg + Z.of_nat i) eqn:Ex.
    + apply Z.eqb_eq in Ex.
      replace ((reg + Z.of_nat (S i) <=? x) && (x <? reg + Z.of_nat (S i + n)))
        with false by range_test.
      replace ((reg + Z.of_nat i <=? x) && (x <? reg + Z.of_nat (i + S n)))
        with true by range_test.
      replace (Z.to_nat (x - reg)) with i by lia. reflexivity.
    + apply Z.eqb_neq in Ex.
      replace ((reg + Z.of_nat i <=? x) && (x <? reg + Z.of_nat (i + S n)))
        with ((reg + Z.of_nat (S i) <=? x) && (x <? reg + Z.of_nat (S i + n)))
        by range_test.
      reflexivity.
Qed.

Lemma bulk_write_loop_on_chip (init : Z -> Z) (reg : Z) (val : nat -> Z)
    (n : nat) :
  forall (i : nat) h tr,
    0 <= reg -> reg + Z.of_nat (i + n) <= 256 ->
    bulk_write_loop (chip init) reg val i n {| haptic := h; trace := tr |} =
    (0, {| haptic := h; trace := tr ++ bulk_log reg val i n |}).
Proof.
  induction n as [| n IH]; intros i h tr Hreg Hmax.
  - unfold bulk_log. cbn [bulk_write_loop seq map]. rewrite app_nil_r.
    reflexivity.
  - cbn [bulk_write_loop]. rewrite u8_small by lia.
    unfold bind, da7280_reg_write.
    cbn [chip i2c_register_write trace haptic].
    change (0 =? 0) with true. cbv iota.
    rewrite IH by lia. rewrite bulk_log_snoc, <- app_assoc. reflexivity.
Qed.

Lemma mem_read_loop_on_chip (init : Z -> Z) (base : Z) (n : nat) :
  forall (i : nat) (acc : list Z) h tr,
    0 <= base ->
    exists tr',
      mem_read_loop (chip init) base i n acc {| haptic := h; trace := tr |} =
      ((0, acc ++ map (fun j => u8 (reg_value init tr (u8 (base + Z.of_nat j))))
                    (seq i n)),
       {| haptic := h; trace := tr' |}).
Proof.
  induction n as [| n IH]; intros i acc h tr Hbase.
  - exists tr. cbn [mem_read_loop seq map]. rewrite app_nil_r. reflexivity.
  - cbn [mem_read_loop seq map]. unfold bind at 1. unfold da7280_reg_read.
    cbn [chip i2c_register_read trace haptic].
    change (0 <? 0) with false. cbv iota.
    replace (base <? 0) with false by lia.
    set (v := reg_value init tr (u8 (base + Z.of_nat i))).
    destruct (IH (S i)
                (acc ++ [u8 (Z.land (u8 (u8 v)) 255)]) h
                (tr ++ [BusRead (u8 (base + Z.of_nat i)) 0 (u8 v)]) Hbase)
      as (tr' & ->).
    exists tr'. f_equal. f_equal. rewrite <- app_assoc. cbn [app].
    f_equal. f_equal.
    + rewrite (u8_small (u8 v)) by apply u8_range.
      rewrite u8_land_r by lia.
      apply (land_low_bits _ 8); [lia |]. apply u8_range.
    + apply map_ext. intros j. rewrite reg_value_read_snoc. reflexivity.
Qed.

(** X19: on a chip that keeps what is written to it, with no warning
    pending, the pattern memory unlocked and its base address in the
    pattern area, [da7280_haptic_mem_update] followed by
    [da7280_haptic_mem_read] of the same size gives back the first [size]
    bytes uploaded, both calls answering 0, as long as [size] bytes fit
    between the base address and the end of the pattern area. *)
Theorem mem_update_then_read_round_trip
    (init : Z -> Z) (snp_mem : nat -> Z) (size : Z) (h : da7280_haptic) :
  let base := u8 (init DA7280_MEM_CTL1) in
  Z.land (u8 (init DA7280_IRQ_STATUS1)) DA7280_STA_WARNING_MASK = 0 ->
  Z.land (Z.lnot (u8 (init DA7280_MEM_CTL2))) DA7280_PATTERN_MEM_LOCK_MASK = 0 ->
  DA7280_SNP_MEM_0 <= base ->
  0 <= size <= DA7280_SNP_MEM_SIZE ->
  base + size <= DA7280_SNP_MEM_MAX + 1 ->
  (forall i, 0 <= snp_mem i < 256) ->
  exists tr1 tr2,
    da7280_haptic_mem_update (chip init) snp_mem size
      {| haptic := h; trace := [] |} =
      (0, {| haptic := h; trace := tr1 |}) /\
    da7280_haptic_mem_read (chip init) size {| haptic := h; trace := tr1 |} =
      ((0, map snp_mem (seq 0 (Z.to_nat size))),
       {| haptic := h; trace := tr2 |}).
Proof.
  intros base Hsta Hlock Hbase Hsize Hfit Hbytes.
  unfold DA7280_SNP_MEM_0, DA7280_SNP_MEM_SIZE, DA7280_SNP_MEM_MAX,
    DA7280_SNP_MEM_99 in *.
  assert (Hb : 0 <= base < 256) by apply u8_range.
  set (n := Z.to_nat (231 - base + 1)).
  set (pre := [BusRead DA7280_IRQ_STATUS1 0 (u8 (init DA7280_IRQ_STATUS1));
               BusRead DA7280_MEM_CTL2 0 (u8 (init DA7280_MEM_CTL2));
               BusRead DA7280_MEM_CTL1 0 base]).
  exists (pre ++ bulk_log base snp_mem 0 n).
  assert (Hup :
    da7280_haptic_mem_update (chip init) snp_mem size
      {| haptic := h; trace := [] |} =
    (0, {| haptic := h; trace := pre ++ bulk_log base snp_mem 0 n |})).
  { unfold da7280_haptic_mem_update, DA7280_SNP_MEM_SIZE, DA7280_SNP_MEM_MAX,
      DA7280_SNP_MEM_99.
    replace (size >? 100) with false by lia.
    unfold bind at 1. unfold da7280_reg_read at 1.
    cbn [chip i2c_register_read trace haptic reg_value app].
    change (0 <? 0) with false. cbv iota.
    pose proof (u8_range (init DA7280_IRQ_STATUS1)) as Hs.
    replace (u8 (init DA7280_IRQ_STATUS1) <? 0) with false by lia.
    rewrite Hsta. change (nonzero 0) with false. cbv iota.
    unfold bind at 1. unfold da7280_reg_read at 1.
    cbn [chip i2c_register_read trace haptic reg_value app].
    change (0 <? 0) with false. cbv iota.
    pose proof (u8_range (init DA7280_MEM_CTL2)) as Hl.
    replace (u8 (init DA7280_MEM_CTL2) <? 0) with false by lia.
    rewrite Hlock. change (nonzero 0) with false. cbv iota.
    unfold bind at 1. unfold da7280_reg_read at 1.
    cbn [chip i2c_register_read trace haptic reg_value app].
    change (0 <? 0) with false. cbv iota.
    fold base. replace (base <? 0) with false by lia.
    rewrite (u8_small base) by exact Hb.
    unfold da7280_reg_bulk_write. fold n.
    rewrite bulk_write_loop_on_chip by (unfold n; lia).
    reflexivity. }
  assert (Hctl : reg_value init (pre ++ bulk_log base snp_mem 0 n)
                   DA7280_MEM_CTL1 = init DA7280_MEM_CTL1).
  { rewrite reg_value_bulk.
    replace ((base + Z.of_nat 0 <=? DA7280_MEM_CTL1)
             && (DA7280_MEM_CTL1 <? base + Z.of_nat (0 + n)))
      with false by (unfold DA7280_MEM_CTL1; range_test).
    reflexivity. }
  destruct (mem_read_loop_on_chip init base (Z.to_nat size) 0 [] h
              ((pre ++ bulk_log base snp_mem 0 n)
                 ++ [BusRead DA7280_MEM_CTL1 0 base]) (proj1 Hb))
    as (tr2 & Hloop).
  exists tr2. split; [exact Hup |].
  unfold da7280_haptic_mem_read, DA7280_SNP_MEM_SIZE.
  replace (size >? 100) with false by lia.
  unfold bind at 1. unfold da7280_reg_read at 1.
  cbn [chip i2c_register_read trace haptic].
  change (0 <? 0) with false. cbv iota.
  rewrite Hctl. fold base. replace (base <? 0) with false by lia.
  rewrite Hloop. cbn [app]. f_equal. f_equal.
  apply map_ext_in. intros j Hj. apply in_seq in Hj.
  rewrite reg_value_read_snoc, reg_value_bulk.
  rewrite (u8_small (base + Z.of_nat j)) by lia.
  replace ((base + Z.of_nat 0 <=? base + Z.of_nat j)
           && (base + Z.of_nat j <? base + Z.of_nat (0 + n)))
    with true by (unfold n; range_test).
  replace (Z.to_nat (base + Z.of_nat j - base)) with j by lia.
  apply u8_small, Hbytes.
Qed.

Lemma mem_update_then_read_round_trip_witness :
  let init := fun r => if r =? 0x2D then 0x80 else if r =? 0x2C then 0x84 else 0 in
  let snp_mem := fun i => if Nat.even i then 0x11 else 0x22 in
  exists tr1 tr2,
    da7280_haptic_mem_update (chip init) snp_mem 3
      {| haptic := haptic0; trace := [] |} =
      (0, {| haptic := haptic0; trace := tr1 |}) /\
    da7280_haptic_mem_read (chip init) 3
      {| haptic := haptic0; trace := tr1 |} =
      ((0, map snp_mem (seq 0 (Z.to_nat 3))),
       {| haptic := haptic0; trace := tr2 |}).
Proof.
  intros init snp_mem.
  apply (mem_update_then_read_round_trip init snp_mem 3 haptic0).
  - reflexivity.
  - reflexivity.
  - vm_compute. discriminate.
  - vm_compute. split; discriminate.
  - vm_compute. discriminate.
  - intros i. unfold snp_mem. destruct (Nat.even i); lia.
Defined.

(** ** The interrupt handler's error paths *)

Ltac ins H :=
  cbn [In] in H;
  repeat (destruct H as [H | H]; [inversion H; subst; clear H |]);
  try contradiction.

Lemma irq_handler_paths_does (T : transport) h tr :
  does (da7280_irq_handler T) h tr (fun ret h' new =>
    h' = h /\
    Forall (writes_within [DA7280_TOP_CTL1; DA7280_IRQ_EVENT1]) new /\
    (forall reg r v,
       In (BusRead reg r v) new -> reg <> DA7280_TOP_CTL1 -> r < 0 ->
       ret = - EIO /\ Forall (writes_within []) new) /\
    (forall x c,
       In (BusWrite DA7280_TOP_CTL1 x c) new -> c < 0 ->
       ret = - EIO /\ Forall (no_write_to DA7280_IRQ_EVENT1) new) /\
    (forall x c, In (BusWrite DA7280_IRQ_EVENT1 x c) new -> ret = c)).
Proof.
  unfold da7280_irq_handler, irq_read_events.
  change (u8 (DA7280_IRQ_EVENT1 + 0)) with DA7280_IRQ_EVENT1.
  change (u8 (DA7280_IRQ_EVENT1 + (0 + 1))) with DA7280_IRQ_EVENT_WARNING_DIAG.
  change (u8 (DA7280_IRQ_EVENT1 + (0 + 1 + 1))) with DA7280_IRQ_EVENT_PAT_DIAG.
  steps.
  all: cbn [app nth] in *.
  all: split; [reflexivity |].
  all: split; [within |].
  all: split; [| split].
  all: try (intros reg' r' v' Hin Hreg Hneg; ins Hin;
            first [ lia
                  | exfalso; apply Hreg; reflexivity
                  | split; [reflexivity | within] ]).
  all: try (intros x' c' Hin Hneg; ins Hin;
            first [ lia
                  | discriminate
                  | split; [reflexivity | footprint] ]).
  all: try (intros x' c' Hin; ins Hin;
            first [ reflexivity | discriminate | lia ]).
Qed.

(** X21: what [da7280_irq_handler] does when the bus fails.  It writes to
    [TOP_CTL1] and [IRQ_EVENT1] only, so the two diagnostic event registers
    it reads are never written.  A failed read of an event register gives
    [-EIO] with nothing written; a stop on a pattern fault whose write fails
    gives [-EIO] with the event left uncleared; and the code of the
    event-clear write is the handler's result as it is, not replaced by
    [-EIO].  The driver's record is not touched on any path. *)
Theorem irq_handler_error_paths (T : transport) (w : world) :
  exists ret new,
    da7280_irq_handler T w =
      (ret, {| haptic := haptic w; trace := trace w ++ new |}) /\
    Forall (writes_within [DA7280_TOP_CTL1; DA7280_IRQ_EVENT1]) new /\
    (forall reg r v,
       In (BusRead reg r v) new -> reg <> DA7280_TOP_CTL1 -> r < 0 ->
       ret = - EIO /\ Forall (writes_within []) new) /\
    (forall x c,
       In (BusWrite DA7280_TOP_CTL1 x c) new -> c < 0 ->
       ret = - EIO /\ Forall (no_write_to DA7280_IRQ_EVENT1) new) /\
    (forall x c, In (BusWrite DA7280_IRQ_EVENT1 x c) new -> ret = c).
Proof.
  destruct (does_elim _ w _ (irq_handler_paths_does T (haptic w) (trace w)))
    as (ret & h' & new & Hrun & -> & H).
  exists ret, new. split; [exact Hrun | exact H].
Qed.

(** The event clear reports 7: the handler answers 7. *)
Example irq_handler_clear_fails :
  da7280_irq_handler
    {| i2c_register_read := fun _ reg => (0, if reg =? 0x03 then 0x02 else 0);
       i2c_register_write := fun _ _ _ => 7 |} world0 =
  (7, {| haptic := haptic0;
         trace := [BusRead DA7280_IRQ_EVENT1 0 0x02;
                   BusRead DA7280_IRQ_EVENT_WARNING_DIAG 0 0;
                   BusRead DA7280_IRQ_EVENT_PAT_DIAG 0 0;
                   BusWrite DA7280_IRQ_EVENT1 0x02 7] |}).
Proof. reflexivity. Qed.

(** ** From the mode asked for to the mode written *)

Lemma set_op_mode_run (mode : Z) (w : world) :
  0 <= mode < DA7280_MODE_MAX ->
  da7280_set_op_mode mode w =
    (0, {| haptic := set_op_mode_field mode (haptic w); trace := trace w |}).
Proof.
  intros Hm. unfold da7280_set_op_mode, DA7280_MODE_MAX in *.
  replace ((mode >=? 5) || (mode <? 0)) with false by lia.
  rewrite u8_small by lia. destruct w as [h tr]. reflexivity.
Qed.

(** X20: a mode accepted by [da7280_set_op_mode] (0..4) is recorded without
    a bus call, [da7280_get_op_mode] gives it back, and the next
    [da7280_haptic_enable] writes exactly that mode into the operation-mode
    field of [TOP_CTL1] (for PWM, in a build with [DA7280_HAPTIC_PWM]).  Any
    other mode is refused with [-EINVAL] and the record stays as it was. *)
Theorem set_op_mode_reaches_top_ctl1
    (T : transport) (flag : bool) (mode : Z) (w : world) :
  (0 <= mode < DA7280_MODE_MAX ->
   (mode = DA7280_PWM_MODE -> flag = true) ->
   exists w1,
     da7280_set_op_mode mode w = (0, w1) /\
     trace w1 = trace w /\
     da7280_get_op_mode w1 = (mode, w1) /\
     exists ret r old x c rest,
       da7280_haptic_enable T flag w1 =
         (ret, {| haptic := haptic w1;
                  trace := trace w ++ BusRead DA7280_TOP_CTL1 r old
                             :: BusWrite DA7280_TOP_CTL1 x c :: rest |}) /\
       Z.land x DA7280_OPERATION_MODE_MASK = mode /\
       (0 <= r ->
        Z.land x (Z.lnot DA7280_OPERATION_MODE_MASK) =
        Z.land old (Z.lnot DA7280_OPERATION_MODE_MASK))) /\
  (~ 0 <= mode < DA7280_MODE_MAX ->
   da7280_set_op_mode mode w = (- EINVAL, w)).
Proof.
  split.
  - intros Hm Hpwm.
    exists {| haptic := set_op_mode_field mode (haptic w); trace := trace w |}.
    split; [apply set_op_mode_run; exact Hm |].
    split; [reflexivity |]. split; [reflexivity |].
    assert (Hop : 0 <= op_mode (set_op_mode_field mode (haptic w)) < 8)
      by (cbn; unfold DA7280_MODE_MAX in Hm; lia).
    destruct (haptic_enable_does T flag
                (set_op_mode_field mode (haptic w)) (trace w) Hop Hpwm)
      as (ret & h' & new & Hrun & -> & r & old & x & c & rest
          & -> & Hfld & Hkeep & _).
    exists ret, r, old, x, c, rest.
    split; [exact Hrun |]. split; [exact Hfld | exact Hkeep].
  - intros Hm. unfold da7280_set_op_mode, DA7280_MODE_MAX in *.
    replace ((mode >=? 5) || (mode <? 0)) with true by lia. reflexivity.
Qed.

Lemma set_op_mode_reaches_top_ctl1_witness :
  (exists w1,
     da7280_set_op_mode DA7280_RTWM_MODE world0 = (0, w1) /\
     trace w1 = trace world0 /\
     da7280_get_op_mode w1 = (DA7280_RTWM_MODE, w1) /\
     exists ret r old x c rest,
       da7280_haptic_enable (steady_bus 0) false w1 =
         (ret, {| haptic := haptic w1;
                  trace := trace world0 ++ BusRead DA7280_TOP_CTL1 r old
                             :: BusWrite DA7280_TOP_CTL1 x c :: rest |}) /\
       Z.land x DA7280_OPERATION_MODE_MASK = DA7280_RTWM_MODE /\
       (0 <= r ->
        Z.land x (Z.lnot DA7280_OPERATION_MODE_MASK) =
        Z.land old (Z.lnot DA7280_OPERATION_MODE_MASK))) /\
  da7280_set_op_mode 5 world0 = (- EINVAL, world0).
Proof.
  split.
  - apply (proj1 (set_op_mode_reaches_top_ctl1 (steady_bus 0) false
                    DA7280_RTWM_MODE world0)).
    + vm_compute. split; [discriminate | reflexivity].
    + vm_compute. discriminate.
  - apply (proj2 (set_op_mode_reaches_top_ctl1 (steady_bus 0) false 5 world0)).
    vm_compute. intros [_ H]. discriminate H.
Defined.
